(** * digital-volume: the three acquisition scripts

    A shallow embedding of

    - [fetch_debates_2026.py]: the date-range fetch loop and its content
      sniff [looks_like_xml];
    - [generate_available_dates.py]: the regex extraction of dates from a
      remote file listing, deduplicated, sorted and serialised as JSON;
    - [up_to_HF.py]: the existence check that guards the bulk upload.

    Python values are modelled as follows.  [bytes] is [list byte]; [int]
    is [Z]; a [date] is its proleptic Gregorian ordinal.  A [str] that a
    script only builds, passes on or prints (URLs, file names, messages) is
    a [string]; a [str] that a script examines character by character, a
    path of the remote listing, is the list of its code points, and a [set]
    of those is a [gset].  The decimal digits of Unicode, which the regex
    class [\d] matches, depend on the version of the interpreter: they are
    a parameter [nd] of the index generator, and the theorems about it hold
    for every [nd].

    Calls that leave the process (HTTP, file system, console, sleep, dataset
    client) are recorded in a trace of events, in program order, and what
    the outside world answers to a call is a parameter of the run: a value,
    or a raised exception.  Exceptions are the instances of Python's
    [Exception], which is what [except Exception] catches; [SystemExit] is
    kept apart.  A [print] inside the [try] of the fetch loop returns or
    raises, as the console decides, and what it raises is handled there.  A
    [print] outside any [try] is taken to succeed: an exception there would
    end the run at once.  The session headers and the timeout of the
    requests are constants of the script and are not part of the [Get]
    event. *)

From Stdlib Require Import ZArith List Ascii String Strings.Byte Sorted Permutation.
From stdpp Require Import base tactics option list sorting gmap strings.

Local Open Scope string_scope.
Local Open Scope Z_scope.

(** ** Python [bytes] *)

Module Bytes.

Abbreviation bytes := (list byte).

(** A [bytes] literal [b"..."]. *)
Definition lit (s : string) : bytes := list_byte_of_string s.

(** ASCII whitespace, the bytes [bytes.lstrip()] removes:
    space, [\t], [\n], [\r], [\x0b], [\f]. *)
Definition is_space (c : byte) : bool :=
  let n := Byte.to_N c in
  ((9 <=? n) && (n <=? 13) || (n =? 32))%N.

(** [bytes.lower()] on one byte: only ASCII [A-Z] change. *)
Definition lower_byte (c : byte) : byte :=
  let n := Byte.to_N c in
  if ((65 <=? n) && (n <=? 90))%N
  then match Byte.of_N (n + 32) with Some c' => c' | None => c end
  else c.

Definition lower (s : bytes) : bytes := map lower_byte s.

Fixpoint lstrip (s : bytes) : bytes :=
  match s with
  | c :: s' => if is_space c then lstrip s' else s
  | [] => []
  end.

(** [s[:n]] for a non-negative [n]. *)
Definition slice_to (n : nat) (s : bytes) : bytes := firstn n s.

Fixpoint startswith (s p : bytes) {struct p} : bool :=
  match p, s with
  | [], _ => true
  | _ :: _, [] => false
  | x :: p', y :: s' => Byte.eqb x y && startswith s' p'
  end.

Definition len (s : bytes) : Z := Z.of_nat (length s).

End Bytes.

Import Bytes.

(** ** Formatting of integers: [str(n)] and [%0wd] *)

Module Fmt.

Definition digit (n : Z) : ascii := ascii_of_nat (48 + Z.to_nat (n mod 10)).

(** The decimal digits of a non-negative [n], most significant first; at
    most [fuel] of them are produced. *)
Fixpoint digits (fuel : nat) (n : Z) (acc : string) : string :=
  match fuel with
  | O => acc
  | S fuel' =>
      let acc' := String (digit n) acc in
      if n <? 10 then acc' else digits fuel' (n / 10) acc'
  end.

Definition str_nonneg (n : Z) : string := digits (S (Z.to_nat (Z.log2 n))) n "".

(** [str(n)] for an [int]. *)
Definition str (n : Z) : string :=
  if n <? 0 then String "-" (str_nonneg (- n)) else str_nonneg n.

Fixpoint zeros (k : nat) (s : string) : string :=
  match k with O => s | S k' => String "0" (zeros k' s) end.

(** ["%0wd" % n]: the sign, then zeros up to width [w], then the digits. *)
Definition zpad (w : nat) (n : Z) : string :=
  if n <? 0
  then let ds := str_nonneg (- n) in
       String "-" (zeros (w - 1 - String.length ds) ds)
  else let ds := str_nonneg n in zeros (w - String.length ds) ds.

End Fmt.

(** ** Python's [datetime.date]

    A date is kept as its proleptic Gregorian ordinal ([date.toordinal()],
    day 1 is 0001-01-01); year, month and day are recovered from it as the
    reference implementation of [datetime] does.  Comparison of dates is
    comparison of ordinals, and adding a [timedelta] adds to the ordinal. *)

Module Date.

Definition MINYEAR : Z := 1.
Definition MAXYEAR : Z := 9999.
Definition MAXORDINAL : Z := 3652059.

Definition DAYS_IN_MONTH : list Z :=
  [-1; 31; 28; 31; 30; 31; 30; 31; 31; 30; 31; 30; 31].
Definition DAYS_BEFORE_MONTH : list Z :=
  [-1; 0; 31; 59; 90; 120; 151; 181; 212; 243; 273; 304; 334].

Definition is_leap (year : Z) : bool :=
  (year mod 4 =? 0) && (negb (year mod 100 =? 0) || (year mod 400 =? 0)).

Definition days_before_year (year : Z) : Z :=
  let y := year - 1 in y * 365 + y / 4 - y / 100 + y / 400.

Definition days_in_month (year month : Z) : Z :=
  if (month =? 2) && is_leap year then 29
  else nth (Z.to_nat month) DAYS_IN_MONTH 0.

Definition days_before_month (year month : Z) : Z :=
  nth (Z.to_nat month) DAYS_BEFORE_MONTH 0
  + (if (2 <? month) && is_leap year then 1 else 0).

Definition ymd2ord (year month day : Z) : Z :=
  days_before_year year + days_before_month year month + day.

Definition DI400Y : Z := 146097.
Definition DI100Y : Z := 36524.
Definition DI4Y : Z := 1461.

(** The month and the day of the [n]-th day of a year, counted from 0. *)
Definition month_day (leapyear : bool) (n : Z) : Z * Z :=
  let month := Z.shiftr (n + 50) 5 in
  let preceding :=
    nth (Z.to_nat month) DAYS_BEFORE_MONTH 0
    + (if (2 <? month) && leapyear then 1 else 0) in
  let '(month, preceding) :=
    if n <? preceding
    then (month - 1,
          preceding - (nth (Z.to_nat (month - 1)) DAYS_IN_MONTH 0
                       + (if (month - 1 =? 2) && leapyear then 1 else 0)))
    else (month, preceding) in
  (month, n - preceding + 1).

Definition ord2ymd (n : Z) : Z * Z * Z :=
  let n := n - 1 in
  let n400 := n / DI400Y in
  let n := n mod DI400Y in
  let year := n400 * 400 + 1 in
  let n100 := n / DI100Y in
  let n := n mod DI100Y in
  let n4 := n / DI4Y in
  let n := n mod DI4Y in
  let n1 := n / 365 in
  let n := n mod 365 in
  let year := year + n100 * 100 + n4 * 4 + n1 in
  if (n1 =? 4) || (n100 =? 4) then (year - 1, 12, 31)
  else
    let leapyear := (n1 =? 3) && (negb (n4 =? 24) || (n100 =? 3)) in
    let '(month, day) := month_day leapyear n in
    (year, month, day).

(** The argument check of the constructor [date(year, month, day)]. *)
Definition check_date_fields (year month day : Z) : bool :=
  (MINYEAR <=? year) && (year <=? MAXYEAR)
  && (1 <=? month) && (month <=? 12)
  && (1 <=? day) && (day <=? days_in_month year month).

(** [(y1, m1, d1) <= (y2, m2, d2)], the comparison of two dates by their
    fields. *)
Definition ymd_leb (a b : Z * Z * Z) : bool :=
  let '(y1, m1, d1) := a in
  let '(y2, m2, d2) := b in
  (y1 <? y2) || ((y1 =? y2) && ((m1 <? m2) || ((m1 =? m2) && (d1 <=? d2)))).

(** [month_day] gives a month and a day of that month, and these are the
    [n]-th day of the year. *)
Definition month_day_ok (leapyear : bool) (n : Z) : bool :=
  let '(m, d) := month_day leapyear n in
  (1 <=? m) && (m <=? 12) && (1 <=? d)
  && (d <=? (if (m =? 2) && leapyear then 29 else nth (Z.to_nat m) DAYS_IN_MONTH 0))
  && (nth (Z.to_nat m) DAYS_BEFORE_MONTH 0
      + (if (2 <? m) && leapyear then 1 else 0) + d =? n + 1).

Definition digit_value (c : ascii) : Z := Z.of_N (N_of_ascii c) - 48.

(** The number a string of decimal digits denotes. *)
Definition read_decimal (s : string) : Z :=
  (fix go (acc : Z) (s : string) : Z :=
     match s with
     | EmptyString => acc
     | String c s' => go (10 * acc + digit_value c) s'
     end) 0 s.

(** The fields of a string laid out as [yyyy-mm-dd]. *)
Definition parse_iso (s : string) : Z * Z * Z :=
  match s with
  | String a (String b (String c (String d (String _
      (String m1 (String m2 (String _ (String d1 (String d2 _))))))))) =>
      (read_decimal (String a (String b (String c (String d EmptyString)))),
       read_decimal (String m1 (String m2 EmptyString)),
       read_decimal (String d1 (String d2 EmptyString)))
  | _ => (0, 0, 0)
  end.

Record date := Date { toordinal : Z }.

Definition of_ymd (year month day : Z) : date := Date (ymd2ord year month day).

Definition year (d : date) : Z := (ord2ymd (toordinal d)).1.1.
Definition month (d : date) : Z := (ord2ymd (toordinal d)).1.2.
Definition day (d : date) : Z := (ord2ymd (toordinal d)).2.

(** [d.isoformat()], that is ["%04d-%02d-%02d" % (year, month, day)]. *)
Definition isoformat (d : date) : string :=
  Fmt.zpad 4 (year d) ++ "-" ++ Fmt.zpad 2 (month d) ++ "-" ++ Fmt.zpad 2 (day d).

(** [d1 <= d2]. *)
Definition leb (d1 d2 : date) : bool := toordinal d1 <=? toordinal d2.

(** The invariant of the type [date]: [date.min <= d <= date.max]. *)
Definition date_valid (d : date) : Prop := 1 <= toordinal d <= MAXORDINAL.

End Date.

Import Date.

(** ** Effects: exceptions, the outside world, the trace *)

(** An instance of Python's [Exception]; [str(e)] is its message. *)
Inductive exn := Exception (msg : string).

Definition str_exn (e : exn) : string := let 'Exception msg := e in msg.

(** What a call gives back: a value, or a raised exception. *)
Inductive result (A : Type) :=
| Ok (a : A)
| Raise (e : exn).
Arguments Ok {A} a.
Arguments Raise {A} e.

(** A [pathlib.Path]: a path given as a string, or [dir / name]. *)
Inductive path :=
| Path (s : string)
| Child (dir : path) (name : string).

(** [p.name], the final component, for a path made with [/]. *)
Definition name_of (p : path) : string :=
  match p with
  | Path s => s
  | Child _ name => name
  end.

(** [p.parent], for a path made with [/]. *)
Definition parent_of (p : path) : path :=
  match p with
  | Path s => Path s
  | Child dir _ => dir
  end.

(** [str(p)]. *)
Fixpoint path_str (p : path) : string :=
  match p with
  | Path s => s
  | Child dir name => path_str dir ++ "/" ++ name
  end.

(** The calls the scripts make outside the process. *)
Inductive event :=
| Mkdir (p : path)
| Get (url : string)
| WriteBytes (p : path) (data : bytes)
| WriteText (p : path) (text : string)
| Print (line : string)
| Sleep
| ListRepoFiles (repo_id repo_type revision : string)
| Exists (p : path)
| Rglob (p : path) (pattern : string)
| UploadLargeFolder (repo_id repo_type folder_path : string) (num_workers : Z)
    (print_report : bool) (print_report_every : Z).

(** How a piece of a script ends: normally; with an exception; with
    [SystemExit], which [except Exception] does not catch; or, for a loop
    only, with its iteration budget used up. *)
Inductive outcome (A : Type) :=
| Done (a : A)
| Raised (e : exn)
| Exited (msg : string)
| OutOfFuel.
Arguments Done {A} a.
Arguments Raised {A} e.
Arguments Exited {A} msg.
Arguments OutOfFuel {A}.

(** A state that carries the trace of calls made so far, in program order. *)
Class Traced (S : Type) := { emit : event -> S -> S; trace : S -> list event }.

Global Instance list_traced : Traced (list event) :=
  {| emit := fun ev tr => (tr ++ [ev])%list; trace := fun tr => tr |}.

(** State and exception monad: what a statement did to the state stays done
    when a later statement raises. *)
Definition M (S A : Type) : Type := S -> outcome A * S.

Definition ret {S A} (a : A) : M S A := fun st => (Done a, st).

Definition bind {S A B} (m : M S A) (k : A -> M S B) : M S B :=
  fun st =>
    match m st with
    | (Done a, st') => k a st'
    | (Raised e, st') => (Raised e, st')
    | (Exited msg, st') => (Exited msg, st')
    | (OutOfFuel, st') => (OutOfFuel, st')
    end.

Notation "'let*' x ':=' m 'in' k" := (bind m (fun x => k))
  (at level 10, x name, m at level 100, k at level 200).
Notation "m >> k" := (bind m (fun _ => k))
  (at level 100, k at level 200, right associativity).

(** A call to the outside: it is recorded, then it returns or raises. *)
Definition call {S A} `{Traced S} (ev : event) (answer : result A) : M S A :=
  fun st =>
    match answer with
    | Ok a => (Done a, emit ev st)
    | Raise e => (Raised e, emit ev st)
    end.

(** [raise SystemExit(msg)]. *)
Definition system_exit {S A} (msg : string) : M S A := fun st => (Exited msg, st).

(** [try: body / except Exception as e: handler e]. *)
Definition try_except {S A} (body : M S A) (handler : exn -> M S A) : M S A :=
  fun st =>
    match body st with
    | (Raised e, st') => handler e st'
    | r => r
    end.

(** [print(line)] where no handler is in scope. *)
Definition print {S} `{Traced S} (line : string) : M S unit := call (Print line) (Ok tt).

(** ** [fetch_debates_2026.py] *)

Module Fetch.

Definition looks_like_xml (content : bytes) : bool :=
  if match content with [] => true | _ => false end || (len content <? 100)
  then false
  else
    let head := lower (slice_to 500 (lstrip content)) in
    if startswith head (lit "<!doctype html") || startswith head (lit "<html")
    then false
    else startswith head (lit "<?xml") || startswith head (lit "<").

(** The part of [requests.Response] the script reads. *)
Record Response := { status_code : Z; content : bytes }.

(** The answers of the outside world: the home directory; the file system,
    by path; the server, by URL; the console, by line, for the [print]
    inside the [try], where an exception of [print] is handled like any
    other. *)
Record World := {
  home : string;
  mkdir : path -> result unit;
  http_get : string -> result Response;
  write_bytes : path -> bytes -> result unit;
  console : string -> result unit
}.

(** The mutable state of [main]: the trace and the two counters. *)
Record State := { calls : list event; saved : Z; missing : Z }.

Global Instance state_traced : Traced State :=
  {| emit := fun ev st =>
       {| calls := (calls st ++ [ev])%list; saved := saved st; missing := missing st |};
     trace := calls |}.

Definition sleep : M State unit := call Sleep (Ok tt).

Definition incr_saved : M State unit :=
  fun st => (Done tt, {| calls := calls st; saved := saved st + 1; missing := missing st |}).
Definition incr_missing : M State unit :=
  fun st => (Done tt, {| calls := calls st; saved := saved st; missing := missing st + 1 |}).

(** [d + dt.timedelta(days=n)]: out of the range of [date] it raises
    [OverflowError]. *)
Definition add_days (d : date) (n : Z) : M State date :=
  fun st =>
    let o := toordinal d + n in
    if (0 <? o) && (o <=? MAXORDINAL) then (Done (Date o), st)
    else (Raised (Exception "date value out of range"), st).

Definition BASE_URL : string := "https://data.oireachtas.ie/akn/ie/debateRecord/dail".

Definition START_DATE : date := of_ymd 2026 1 1.

Section main.
Variable w : World.
(** [END_DATE = dt.date.today()], read once when the module is loaded. *)
Variable END_DATE : date.

Definition OUT_DIR : path := Child (Path (home w)) "2026".

(** The body of the [try]. *)
Definition try_body (url : string) (out_file : path) : M State unit :=
  let* r := call (Get url) (http_get w url) in
  if status_code r =? 404 then incr_missing
  else if (status_code r =? 200) && looks_like_xml (content r) then
    call (WriteBytes out_file (content r))
         (write_bytes w out_file (content r)) >>
    incr_saved >>
    call (Print ("✅ " ++ name_of out_file)) (console w ("✅ " ++ name_of out_file))
  else incr_missing.

(** One iteration of the [while] loop, up to the end of the [try]. *)
Definition iteration (d : date) : M State unit :=
  let date_str := isoformat d in
  let url := BASE_URL ++ "/" ++ date_str ++ "/debate/mul@/main.xml" in
  let out_file := Child OUT_DIR (date_str ++ "_mul@.xml") in
  try_except (try_body url out_file)
             (fun e => print ("⚠️  " ++ date_str ++ ": " ++ str_exn e)).

(** [while d <= END_DATE: ...], with a bound on the number of iterations. *)
Fixpoint while_loop (fuel : nat) (d : date) : M State unit :=
  match fuel with
  | O => fun st => (OutOfFuel, st)
  | S fuel' =>
      if leb d END_DATE then
        iteration d >>
        let* d' := add_days d 1 in
        sleep >>
        while_loop fuel' d'
      else ret tt
  end.

(** The loop from [d]: the bound is the number of days left, plus one for
    the test that leaves the loop. *)
Definition main_loop (d : date) : M State unit :=
  while_loop (S (Z.to_nat (toordinal END_DATE - toordinal d + 1))) d.

Definition main : M State unit :=
  call (Mkdir OUT_DIR) (mkdir w OUT_DIR) >>
  main_loop START_DATE >>
  print (String "010" "Done") >>
  (fun st => print ("Saved XMLs: " ++ Fmt.str (saved st)) st) >>
  (fun st => print ("No record / skipped: " ++ Fmt.str (missing st)) st).

End main.

(** The state [main] starts from: nothing called, [saved = 0], [missing = 0]. *)
Definition init : State := {| calls := []; saved := 0; missing := 0 |}.

(** *** Vocabulary for statements about a run *)

(** The calendar days from [a] to [b], both included, in ascending order. *)
Definition days (a b : date) : list date :=
  Date <$> seqZ (toordinal a) (toordinal b - toordinal a + 1).

(** The URLs requested, in the order of the requests. *)
Definition gets (tr : list event) : list string :=
  omap (fun ev => match ev with Get url => Some url | _ => None end) tr.

Definition url_of (d : date) : string :=
  BASE_URL ++ "/" ++ isoformat d ++ "/debate/mul@/main.xml".

Definition out_file_of (w : World) (d : date) : path :=
  Child (OUT_DIR w) (isoformat d ++ "_mul@.xml").

(** The line the [except] branch prints for date [d] and exception [e]. *)
Definition warning (d : date) (e : exn) : string :=
  "⚠️  " ++ isoformat d ++ ": " ++ str_exn e.

(** [after_try w d st]: how the [try] body of date [d] ends when it is run
    from state [st]. *)
Definition after_try (w : World) (d : date) (st : State) : outcome unit :=
  (try_body w (url_of d) (out_file_of w d) st).1.

(** The request or the file write of date [d] raises [e]: the request
    itself, or the write that follows a 200 response that passes the sniff. *)
Definition day_raises (w : World) (d : date) (e : exn) : Prop :=
  http_get w (url_of d) = Raise e
  \/ exists r, http_get w (url_of d) = Ok r
       /\ status_code r = 200 /\ looks_like_xml (content r) = true
       /\ write_bytes w (out_file_of w d) (content r) = Raise e.

(** The line the [try] body prints once the file of date [d] is written. *)
Definition saved_line (w : World) (d : date) : string :=
  "✅ " ++ name_of (out_file_of w d).

(** The [print] of that line raises [e]: the response has status 200, its
    body passes the sniff, the write succeeds, and the console refuses the
    line. *)
Definition print_raises (w : World) (d : date) (e : exn) : Prop :=
  exists r, http_get w (url_of d) = Ok r
    /\ status_code r = 200 /\ looks_like_xml (content r) = true
    /\ write_bytes w (out_file_of w d) (content r) = Ok tt
    /\ console w (saved_line w d) = Raise e.

(** No exception is raised in the iteration of date [d]. *)
Definition exception_free (w : World) (d : date) : bool :=
  match after_try w d init with
  | Raised _ => false
  | _ => true
  end.

(** Neither the request nor the file write of date [d] raises. *)
Definition request_and_write_pass (w : World) (d : date) : bool :=
  match http_get w (url_of d) with
  | Ok r =>
      if (status_code r =? 200) && looks_like_xml (content r)
      then match write_bytes w (out_file_of w d) (content r) with
           | Ok _ => true
           | Raise _ => false
           end
      else true
  | Raise _ => false
  end.

(** The counters, in the words of the specification: an iteration that
    raises no exception adds one to exactly one counter, an iteration in
    which an exception is raised changes neither, and after the loop
    [saved + missing] has grown by the number of exception-free
    iterations. *)
Definition counters_as_specified
    (w : World) (START END_DATE : date) (st : State) : Prop :=
  (forall d st1,
     let st2 := (iteration w d st1).2 in
     match after_try w d st1 with
     | Raised _ => saved st2 = saved st1 /\ missing st2 = missing st1
     | _ =>
         exists r, http_get w (url_of d) = Ok r
           /\ if (status_code r =? 200) && looks_like_xml (content r)
              then saved st2 = saved st1 + 1 /\ missing st2 = missing st1
              else saved st2 = saved st1 /\ missing st2 = missing st1 + 1
     end)
  /\ let st' := (main_loop w END_DATE START st).2 in
     saved st' + missing st'
     = saved st + missing st
       + Z.of_nat (length (List.filter (exception_free w) (days START END_DATE))).

(** The events of the iteration of date [d], in order. *)
Definition day_events (w : World) (d : date) : list event :=
  trace (iteration w d init).2.

(** The date [d] is saved: the response has status 200, its body passes
    the sniff and the write succeeds. *)
Definition day_saved (w : World) (d : date) : bool :=
  match http_get w (url_of d) with
  | Ok r =>
      (status_code r =? 200) && looks_like_xml (content r)
      && match write_bytes w (out_file_of w d) (content r) with
         | Ok _ => true
         | Raise _ => false
         end
  | Raise _ => false
  end.

(** The date [d] is counted as missing: there is a response, and it is
    not a 200 with a body that passes the sniff. *)
Definition day_missing (w : World) (d : date) : bool :=
  match http_get w (url_of d) with
  | Ok r => negb ((status_code r =? 200) && looks_like_xml (content r))
  | Raise _ => false
  end.

(** The last day of [date]. *)
Definition is_max (d : date) : bool := toordinal d =? MAXORDINAL.

(** A sample world: the server has a record for 2026-01-02 only, the
    request for 2026-01-03 times out, the file system accepts every write. *)
Definition sample_body : bytes :=
  (lit "<?xml version=1.0?><akomaNtoso>" ++ repeat "x"%byte 100)%list.

Definition sample_world : World :=
  {| home := "/home/u";
     mkdir := fun _ => Ok tt;
     http_get := fun url =>
       if String.eqb url (url_of (of_ymd 2026 1 2))
       then Ok {| status_code := 200; content := sample_body |}
       else if String.eqb url (url_of (of_ymd 2026 1 3))
       then Raise (Exception "timed out")
       else Ok {| status_code := 404; content := [] |};
     write_bytes := fun _ _ => Ok tt;
     console := fun _ => Ok tt |}.

(** The same world with a console that raises on every line it is given
    inside the [try]. *)
Definition broken_console_world : World :=
  {| home := home sample_world;
     mkdir := mkdir sample_world;
     http_get := http_get sample_world;
     write_bytes := write_bytes sample_world;
     console := fun _ => Raise (Exception "[Errno 5] Input/output error") |}.

End Fetch.

(** ** Python [str], character by character

    The paths of a remote listing are arbitrary text, and the index
    generator examines them one character at a time: they are kept as the
    sequence of their code points. *)

Module Unicode.

Abbreviation ustr := (list N).

(** The code point of an ASCII character, and the [str] of an ASCII
    literal. *)
Definition uchar (c : ascii) : N := N_of_ascii c.

Definition ulit (s : string) : ustr := uchar <$> list_ascii_of_string s.

Definition is_ascii_digit (c : N) : bool := ((48 <=? c) && (c <=? 57))%N.

(** [a <= b] on [str]: lexicographic, code point by code point. *)
Fixpoint uleb (a b : ustr) : bool :=
  match a, b with
  | [], _ => true
  | _ :: _, [] => false
  | x :: a', y :: b' => (x <? y)%N || ((x =? y)%N && uleb a' b')
  end.

Definition ule (a b : ustr) : Prop := uleb a b = true.

Global Instance ule_dec : RelDecision ule := fun a b => decide (uleb a b = true).

(** The decimal digits (category Nd) of one version of the Unicode
    database, 14.0, the one of CPython 3.11.  They come in runs of ten, from
    the zero to the nine of a script; the table lists the zero of each run. *)
Definition DECIMAL_ZEROS_14 : list N :=
  [
    48; 1632; 1776; 1984; 2406; 2534; 2662; 2790; 2918; 3046; 3174; 3302;
    3430; 3558; 3664; 3792; 3872; 4160; 4240; 6112; 6160; 6470; 6608; 6784;
    6800; 6992; 7088; 7232; 7248; 42528; 43216; 43264; 43472; 43504; 43600;
    44016; 65296; 66720; 68912; 69734; 69872; 69942; 70096; 70384; 70736;
    70864; 71248; 71360; 71472; 71904; 72016; 72784; 73040; 73120; 92768;
    92864; 93008; 120782; 120792; 120802; 120812; 120822; 123200; 123632;
    125264; 130032
  ]%N.

Definition nd_14 (c : N) : bool :=
  existsb (fun z => ((z <=? c) && (c <? z + 10))%N) DECIMAL_ZEROS_14.

End Unicode.

Import Unicode.

(** ** The fragment of Python's [re] the index generator uses *)

Module Re.

(** One pattern character: the class [\d], or a literal (an escaped [\.]
    is the literal dot). *)
Inductive atom := Digit | Lit (c : N).

(** A pattern [(group1)rest$]: one capturing group, more characters, then
    the anchor [$]. *)
Record pattern := { group1 : list atom; rest : list atom }.

Definition lits (s : string) : list atom := Lit <$> ulit s.

Section re.
(** [nd c]: the code point [c] is a decimal digit (category Nd) of the
    Unicode database of the interpreter that runs the script.  The database
    grows from one version of Python to the next; [0-9] are digits in every
    version. *)
Variable nd : N -> bool.

(** [\d] in a [str] pattern compiled without [re.ASCII]: any Unicode
    decimal digit. *)
Definition is_digit (c : N) : bool := is_ascii_digit c || nd c.

Definition atom_matches (a : atom) (c : N) : bool :=
  match a with
  | Digit => is_digit c
  | Lit c' => (c' =? c)%N
  end.

(** Match the atoms at the start of [s]: the text they matched and what
    follows it. *)
Fixpoint match_atoms (p : list atom) (s : ustr) : option (ustr * ustr) :=
  match p with
  | [] => Some ([], s)
  | a :: p' =>
      match s with
      | [] => None
      | c :: s' =>
          if atom_matches a c then
            match match_atoms p' s' with
            | Some (m, r) => Some (c :: m, r)
            | None => None
            end
          else None
      end
  end.

(** [$] without [re.MULTILINE]: the end of the string, or just before a
    newline that is the last character of the string. *)
Definition at_dollar (s : ustr) : bool :=
  match s with
  | [] => true
  | [c] => (c =? 10)%N
  | _ => false
  end.

(** The match that starts exactly at the beginning of [s]; its group 1. *)
Definition match_here (p : pattern) (s : ustr) : option ustr :=
  match match_atoms (group1 p) s with
  | Some (g, r) =>
      match match_atoms (rest p) r with
      | Some (_, r') => if at_dollar r' then Some g else None
      | None => None
      end
  | None => None
  end.

(** [p.search(s)] followed by [.group(1)]: the first start position, from
    the left, at which the pattern matches; [None] when there is none. *)
Fixpoint search (p : pattern) (s : ustr) : option ustr :=
  match match_here p s with
  | Some g => Some g
  | None =>
      match s with
      | [] => None
      | _ :: s' => search p s'
      end
  end.

(** *** Vocabulary for statements about a match *)

(** The whole of [s] is matched by the atoms [p], one character each. *)
Fixpoint has_shape (p : list atom) (s : ustr) : bool :=
  match p, s with
  | [], [] => true
  | a :: p', c :: s' => atom_matches a c && has_shape p' s'
  | _, _ => false
  end.

End re.

End Re.

(** ** [json.dumps] of a list of strings *)

Module Json.

Definition quote : ascii := "034".
Definition backslash : ascii := "092".

Definition hex_digit (n : N) : ascii :=
  match String.get (N.to_nat n) "0123456789abcdef" with
  | Some c => c
  | None => "0"
  end.

(** ['\\u{0:04x}'.format(n)] for [n] below [0x10000]. *)
Definition u_escape (n : N) : string :=
  String backslash
    (String "u"
      (String (hex_digit (n / 4096))
        (String (hex_digit (n / 256 mod 16))
          (String (hex_digit (n / 16 mod 16))
            (String (hex_digit (n mod 16)) EmptyString)))))%N.

(** The replacement of one character under [ensure_ascii]: the short
    escapes; the characters of [' '..'~'] as they are; [\uxxxx] for the
    others, as a surrogate pair above the basic plane. *)
Definition escape_char (c : N) : string :=
  (if c =? 92 then String backslash (String backslash EmptyString)
   else if c =? 34 then String backslash (String quote EmptyString)
   else if c =? 8 then String backslash "b"
   else if c =? 12 then String backslash "f"
   else if c =? 10 then String backslash "n"
   else if c =? 13 then String backslash "r"
   else if c =? 9 then String backslash "t"
   else if (32 <=? c) && (c <=? 126) then String (ascii_of_N c) EmptyString
   else if c <? 65536 then u_escape c
   else
     let n := c - 65536 in
     u_escape (N.lor 55296 (N.land (N.shiftr n 10) 1023))
     ++ u_escape (N.lor 56320 (N.land n 1023)))%N.

Fixpoint escape (s : ustr) : string :=
  match s with
  | [] => EmptyString
  | c :: s' => escape_char c ++ escape s'
  end.

Definition encode_str (s : ustr) : string :=
  String quote (escape s ++ String quote EmptyString).

Fixpoint join (sep : string) (items : list string) : string :=
  match items with
  | [] => EmptyString
  | [x] => x
  | x :: xs => x ++ sep ++ join sep xs
  end.

Definition newline : string := String "010" EmptyString.

(** [json.dumps(items, indent=2)] for a list of strings. *)
Definition dumps_indent2 (items : list ustr) : string :=
  match items with
  | [] => "[]"
  | _ =>
      "[" ++ newline ++ "  "
      ++ join ("," ++ newline ++ "  ") (map encode_str items)
      ++ newline ++ "]"
  end.

End Json.

(** ** [generate_available_dates.py] *)

Module Generate.

Definition DATASET : string := "bubcass/oireachtas-debates".
Definition BRANCH : string := "main".
Definition OUTPUT : path := Child (Path "data") "available-dates.json".

(** [re.compile(r"(\d{4}-\d{2}-\d{2})_mul@\.xml$")]. *)
Definition date_pattern : Re.pattern :=
  {| Re.group1 :=
       [Re.Digit; Re.Digit; Re.Digit; Re.Digit; Re.Lit (uchar "-");
        Re.Digit; Re.Digit; Re.Lit (uchar "-"); Re.Digit; Re.Digit];
     Re.rest := Re.lits "_mul@.xml" |}.

(** [sorted(dates)]: the elements in ascending order of [str]. *)
Definition sorted (dates : gset ustr) : list ustr :=
  merge_sort ule (elements dates).

(** The dataset client and the file system. *)
Record World := {
  list_repo_files : result (list ustr);
  mkdir : path -> result unit;
  write_text : path -> string -> result unit
}.

Section main.
(** The decimal digits of the interpreter, as for [Re.is_digit]. *)
Variable nd : N -> bool.

(** The loop over [files] that fills the set [dates]. *)
Definition collect (files : list ustr) : gset ustr :=
  foldl (fun dates f =>
           match Re.search nd date_pattern f with
           | Some g => dates ∪ {[ g ]}
           | None => dates
           end) ∅ files.

Definition sorted_dates (files : list ustr) : list ustr :=
  sorted (collect files).

Definition main (w : World) : M (list event) unit :=
  print ("Listing files in dataset " ++ DATASET ++ "...") >>
  let* files := call (ListRepoFiles DATASET "dataset" BRANCH) (list_repo_files w) in
  let sorted_dates := sorted_dates files in
  call (Mkdir (parent_of OUTPUT)) (mkdir w (parent_of OUTPUT)) >>
  call (WriteText OUTPUT (Json.dumps_indent2 sorted_dates))
       (write_text w OUTPUT (Json.dumps_indent2 sorted_dates)) >>
  print ("Found " ++ Fmt.str (Z.of_nat (length sorted_dates))
         ++ " available debate dates.") >>
  print ("Wrote: " ++ path_str OUTPUT).

(** *** Vocabulary for statements about the index *)

Definition digit (c : N) : Prop := Re.is_digit nd c = true.

(** A date substring: ten characters in the shape [dddd-dd-dd]. *)
Definition date_shape (s : ustr) : Prop :=
  exists y1 y2 y3 y4 m1 m2 d1 d2 : N,
    digit y1 /\ digit y2 /\ digit y3 /\ digit y4
    /\ digit m1 /\ digit m2 /\ digit d1 /\ digit d2
    /\ s = [y1; y2; y3; y4; uchar "-"; m1; m2; uchar "-"; d1; d2].

Definition SUFFIX : ustr := ulit "_mul@.xml".

Definition NEWLINE : ustr := [uchar "010"].

(** The path [f] is the date substring [g] followed by the suffix, at the
    end of the path. *)
Definition dated_at_end (f g : ustr) : Prop :=
  date_shape g /\ exists pre, f = (pre ++ g ++ SUFFIX)%list.

(** The same, where the suffix may also be followed by one final newline. *)
Definition dated_at_dollar (f g : ustr) : Prop :=
  date_shape g
  /\ exists pre, f = (pre ++ g ++ SUFFIX)%list
               \/ f = (pre ++ g ++ SUFFIX ++ NEWLINE)%list.

(** The index of a listing, in the words of the specification: ascending,
    without duplicates, and holding a date string exactly when some path of
    the listing is that date followed by the suffix at the end of the path. *)
Definition index_as_specified (files out : list ustr) : Prop :=
  StronglySorted ule out /\ NoDup out
  /\ forall g, g ∈ out <-> exists f, f ∈ files /\ dated_at_end f g.

(** The same with [$] as Python's [re] reads it. *)
Definition index_as_computed (files out : list ustr) : Prop :=
  StronglySorted ule out /\ NoDup out
  /\ forall g, g ∈ out <-> exists f, f ∈ files /\ dated_at_dollar f g.

End main.

(** A date substring of the digits [0-9] only. *)
Definition ascii_date_shape (g : ustr) : Prop := date_shape (fun _ => false) g.

(** The numbers (year, month, day) a date substring of [0-9] spells. *)
Definition numbers (g : ustr) : Z * Z * Z :=
  let v (c : N) : Z := Z.of_N c - 48 in
  match g with
  | y1 :: y2 :: y3 :: y4 :: _ :: m1 :: m2 :: _ :: d1 :: d2 :: _ =>
      (10 * (10 * (10 * v y1 + v y2) + v y3) + v y4, 10 * v m1 + v m2, 10 * v d1 + v d2)
  | _ => (0, 0, 0)
  end.

(** A sample world: the listing of the specification's example; the file
    system accepts the directory and the write. *)
Definition sample_files : list ustr :=
  ulit <$> ["2026-02-01_mul@.xml"; "2026-02-03_mul@.xml"; "notes.txt"].

Definition sample_world : World :=
  {| list_repo_files := Ok sample_files;
     mkdir := fun _ => Ok tt;
     write_text := fun _ _ => Ok tt |}.

End Generate.

(** ** [up_to_HF.py] *)

Module Upload.

Definition REPO_ID : string := "bubcass/oireachtas-debates".
Definition REPO_TYPE : string := "dataset".
Definition DAIL_DIR : path :=
  Path "/Users/david/Developer/2026-01-20_debates_edition/data/xml/dail".
Definition NUM_WORKERS : Z := 3.

(** The file system and the dataset client: whether [DAIL_DIR] exists, the
    XML files below it (paths relative to it), how the upload ends. *)
Record World := {
  dir_exists : bool;
  rglob : result (list string);
  upload_large_folder : result unit
}.

Definition main (w : World) : M (list event) unit :=
  let* found := call (Exists DAIL_DIR) (Ok (dir_exists w)) in
  if negb found then system_exit ("DAIL_DIR not found: " ++ path_str DAIL_DIR)
  else
    let* files := call (Rglob DAIL_DIR "*.xml") (rglob w) in
    print ("Uploading dail from: " ++ path_str DAIL_DIR) >>
    print ("XML files found (recursive): " ++ Fmt.str (Z.of_nat (length files))) >>
    match files with
    | f :: _ => print ("Example file: " ++ f)
    | [] => ret tt
    end >>
    call (UploadLargeFolder REPO_ID REPO_TYPE (path_str DAIL_DIR) NUM_WORKERS true 60)
         (upload_large_folder w) >>
    print "Done.".

End Upload.

(** * Properties *)

(** ** The model of [datetime.date] and of integer formatting, on examples *)

Example isoformat_2026_01_01 : isoformat (of_ymd 2026 1 1) = "2026-01-01".
Proof. reflexivity. Qed.
Example isoformat_2024_02_29 : isoformat (of_ymd 2024 2 29) = "2024-02-29".
Proof. reflexivity. Qed.
Example isoformat_2024_12_31 : isoformat (of_ymd 2024 12 31) = "2024-12-31".
Proof. reflexivity. Qed.
Example isoformat_1900_03_01 : isoformat (of_ymd 1900 3 1) = "1900-03-01".
Proof. reflexivity. Qed.
Example isoformat_max : isoformat (Date MAXORDINAL) = "9999-12-31".
Proof. reflexivity. Qed.
Example isoformat_min : isoformat (Date 1) = "0001-01-01".
Proof. reflexivity. Qed.
Example toordinal_START_DATE : toordinal Fetch.START_DATE = 739617.
Proof. reflexivity. Qed.
Example str_examples :
  Fmt.str 0 = "0" /\ Fmt.str 1234567 = "1234567" /\ Fmt.str (-45) = "-45"
  /\ Fmt.str 1023 = "1023" /\ Fmt.str 1024 = "1024".
Proof. repeat split. Qed.

(** ** Dates as ordinals: the conversions of [datetime] agree *)

Section calendar.

Lemma days_before_year_split (q a b c : Z) :
  0 <= q -> 0 <= a <= 3 -> 0 <= b <= 24 -> 0 <= c <= 3 ->
  days_before_year (400 * q + 100 * a + 4 * b + c + 1)
  = 146097 * q + 36524 * a + 1461 * b + 365 * c.
Proof.
  intros. unfold days_before_year. cbv zeta.
  replace (400 * q + 100 * a + 4 * b + c + 1 - 1)
    with (400 * q + 100 * a + 4 * b + c) by lia.
  Z.div_mod_to_equations; lia.
Qed.

Lemma is_leap_split (q a b c : Z) :
  0 <= q -> 0 <= a <= 3 -> 0 <= b <= 24 -> 0 <= c <= 3 ->
  is_leap (400 * q + 100 * a + 4 * b + c + 1)
  = (c =? 3) && (negb (b =? 24) || (a =? 3)).
Proof.
  intros. unfold is_leap.
  repeat match goal with
  | |- context [?x =? ?y] => destruct (Z.eqb_spec x y)
  end; cbn [andb orb negb]; try reflexivity; exfalso; Z.div_mod_to_equations; lia.
Qed.

(** Every day of a year but the 366th is covered by the table of months. *)
Lemma month_day_table :
  forallb (fun n => month_day_ok true n && month_day_ok false n) (seqZ 0 365) = true.
Proof. vm_compute. reflexivity. Qed.

Lemma month_day_spec (leapyear : bool) (n : Z) :
  0 <= n < 365 -> month_day_ok leapyear n = true.
Proof.
  intros Hn. pose proof month_day_table as Htab.
  rewrite forallb_forall in Htab.
  specialize (Htab n). rewrite <- list_elem_of_In, elem_of_seqZ in Htab.
  specialize (Htab ltac:(lia)). apply andb_true_iff in Htab as [Ht Hf].
  by destruct leapyear.
Qed.

(** The fields [ord2ymd] gives for an ordinal of the range of [date] pass
    the check of the constructor, and [ymd2ord] leads back to the ordinal. *)
Lemma ord2ymd_ymd2ord (n : Z) :
  1 <= n <= MAXORDINAL ->
  exists y m d,
    ord2ymd n = (y, m, d)
    /\ check_date_fields y m d = true
    /\ ymd2ord y m d = n.
Proof.
  intros Hn. unfold ord2ymd, DI400Y, DI100Y, DI4Y, MAXORDINAL in *. cbv zeta.
  set (n0 := n - 1).
  set (q := n0 / 146097). set (r400 := n0 mod 146097).
  set (a := r400 / 36524). set (r100 := r400 mod 36524).
  set (b := r100 / 1461). set (r4 := r100 mod 1461).
  set (c := r4 / 365). set (r1 := r4 mod 365).
  assert (n0 = 146097 * q + r400 /\ 0 <= r400 < 146097) as [Hn0 Hr400]
    by (subst q r400; Z.div_mod_to_equations; lia).
  assert (r400 = 36524 * a + r100 /\ 0 <= r100 < 36524) as [Hr400' Hr100]
    by (subst a r100; Z.div_mod_to_equations; lia).
  assert (r100 = 1461 * b + r4 /\ 0 <= r4 < 1461) as [Hr100' Hr4]
    by (subst b r4; Z.div_mod_to_equations; lia).
  assert (r4 = 365 * c + r1 /\ 0 <= r1 < 365) as [Hr4' Hr1]
    by (subst c r1; Z.div_mod_to_equations; lia).
  clearbody q r400 a r100 b r4 c r1. subst n0.
  assert (0 <= q <= 24 /\ 0 <= a <= 4 /\ 0 <= b <= 24 /\ 0 <= c <= 4) as (Hq&Ha&Hb&Hc) by lia.
  destruct ((c =? 4) || (a =? 4)) eqn:Hlast.
  - (* the last day of a leap year *)
    exists (q * 400 + 1 + a * 100 + b * 4 + c - 1), 12, 31. split; [done|].
    assert (exists a' b' c', 0 <= a' <= 3 /\ 0 <= b' <= 24 /\ c' = 3
              /\ (b' <> 24 \/ a' = 3)
              /\ q * 400 + 1 + a * 100 + b * 4 + c - 1
                 = 400 * q + 100 * a' + 4 * b' + c' + 1
              /\ n - 1 = 146097 * q + 36524 * a' + 1461 * b' + 365 * c' + 365)
      as (a' & b' & c' & Ha' & Hb' & -> & Hleap & -> & Hord).
    { apply orb_true_iff in Hlast as [Hc4|Ha4]; [apply Z.eqb_eq in Hc4|apply Z.eqb_eq in Ha4].
      - destruct (decide (a = 4)) as [->|]; [exists 3, 24, 3; lia|].
        exists a, b, 3. lia.
      - exists 3, 24, 3. lia. }
    unfold check_date_fields, ymd2ord, days_in_month, days_before_month, MINYEAR, MAXYEAR.
    rewrite days_before_year_split, is_leap_split by lia.
    assert ((3 =? 3) && (negb (b' =? 24) || (a' =? 3)) = true) as ->.
    { destruct Hleap as [Hb24| ->]; [apply Z.eqb_neq in Hb24; by rewrite Hb24|].
      by rewrite orb_true_r. }
    split; [|simpl; lia].
    simpl. repeat (apply andb_true_iff; split); try done; apply Z.leb_le; lia.
  - (* any other day *)
    apply orb_false_iff in Hlast as [Hc4%Z.eqb_neq Ha4%Z.eqb_neq].
    set (leapyear := (c =? 3) && (negb (b =? 24) || (a =? 3))).
    pose proof (month_day_spec leapyear r1 Hr1) as Hmd. unfold month_day_ok in Hmd.
    destruct (month_day leapyear r1) as [m d].
    exists (q * 400 + 1 + a * 100 + b * 4 + c), m, d. split; [done|].
    repeat (apply andb_true_iff in Hmd as [Hmd ?]).
    replace (q * 400 + 1 + a * 100 + b * 4 + c)
      with (400 * q + 100 * a + 4 * b + c + 1) by lia.
    unfold check_date_fields, ymd2ord, days_in_month, days_before_month, MINYEAR, MAXYEAR.
    rewrite days_before_year_split, is_leap_split by lia. fold leapyear.
    split; [|lia].
    repeat (apply andb_true_iff; split); try done; apply Z.leb_le; lia.
Qed.

End calendar.

(** Evaluate the table lookups and the tests on a known month. *)
Ltac month_tables :=
  repeat match goal with
  | |- context [nth (Z.to_nat ?k) ?T 0] =>
      let v := eval vm_compute in (nth (Z.to_nat k) T 0) in
      change (nth (Z.to_nat k) T 0) with v in *
  | H : context [nth (Z.to_nat ?k) ?T 0] |- _ =>
      let v := eval vm_compute in (nth (Z.to_nat k) T 0) in
      change (nth (Z.to_nat k) T 0) with v in *
  end;
  cbn [Z.eqb Z.ltb Z.compare Pos.compare Pos.compare_cont Pos.eqb andb] in *.

Section calendar_order.

Lemma days_before_year_succ (y : Z) :
  days_before_year (y + 1) = days_before_year y + 365 + (if is_leap y then 1 else 0).
Proof.
  unfold days_before_year, is_leap. cbv zeta.
  replace (y + 1 - 1) with y by lia.
  repeat match goal with
  | |- context [?x =? ?z] => destruct (Z.eqb_spec x z)
  end; cbn [andb orb negb]; Z.div_mod_to_equations; lia.
Qed.

Lemma days_before_year_mono (y y' : Z) :
  y <= y' -> days_before_year y <= days_before_year y'.
Proof. intros H. unfold days_before_year. cbv zeta. Z.div_mod_to_equations; lia. Qed.

Lemma month_cases (m : Z) :
  1 <= m <= 12 ->
  m = 1 \/ m = 2 \/ m = 3 \/ m = 4 \/ m = 5 \/ m = 6
  \/ m = 7 \/ m = 8 \/ m = 9 \/ m = 10 \/ m = 11 \/ m = 12.
Proof. lia. Qed.

Lemma check_date_fields_elim (y m d : Z) :
  check_date_fields y m d = true ->
  1 <= y <= 9999 /\ 1 <= m <= 12 /\ 1 <= d <= days_in_month y m.
Proof.
  unfold check_date_fields, MINYEAR, MAXYEAR. rewrite !andb_true_iff, !Z.leb_le. lia.
Qed.

(** The day of the year lies within the year. *)
Lemma day_of_year_bounds (y m d : Z) :
  1 <= m <= 12 -> 1 <= d <= days_in_month y m ->
  1 <= days_before_month y m + d <= 365 + (if is_leap y then 1 else 0).
Proof.
  intros Hm Hd. unfold days_in_month, days_before_month in *.
  destruct (is_leap y); apply month_cases in Hm; destruct_or?; subst m;
    month_tables; lia.
Qed.

(** The days of a month come before those of a later month. *)
Lemma month_before (y m1 m2 d1 d2 : Z) :
  1 <= m1 -> m1 < m2 -> m2 <= 12 ->
  d1 <= days_in_month y m1 -> 1 <= d2 ->
  days_before_month y m1 + d1 < days_before_month y m2 + d2.
Proof.
  intros H1 H12 H2 Hd1 Hd2. unfold days_in_month, days_before_month in *.
  assert (1 <= m1 <= 12) as Hc1 by lia. assert (1 <= m2 <= 12) as Hc2 by lia.
  destruct (is_leap y); apply month_cases in Hc1; apply month_cases in Hc2;
    destruct_or?; subst m1 m2; month_tables; lia.
Qed.

(** [ymd2ord] is strictly increasing in the order of the fields. *)
Lemma ymd2ord_lt (y1 m1 d1 y2 m2 d2 : Z) :
  check_date_fields y1 m1 d1 = true -> check_date_fields y2 m2 d2 = true ->
  y1 < y2 \/ (y1 = y2 /\ (m1 < m2 \/ (m1 = m2 /\ d1 < d2))) ->
  ymd2ord y1 m1 d1 < ymd2ord y2 m2 d2.
Proof.
  intros (Hy1 & Hm1 & Hd1)%check_date_fields_elim
         (Hy2 & Hm2 & Hd2)%check_date_fields_elim Hlt.
  unfold ymd2ord.
  pose proof (day_of_year_bounds y1 m1 d1 Hm1 Hd1).
  pose proof (day_of_year_bounds y2 m2 d2 Hm2 Hd2).
  destruct Hlt as [Hy|[-> [Hm|[-> Hd]]]].
  - pose proof (days_before_year_succ y1).
    pose proof (days_before_year_mono (y1 + 1) y2 ltac:(lia)). lia.
  - pose proof (month_before y2 m1 m2 d1 d2). lia.
  - lia.
Qed.

Lemma ymd_leb_spec (y1 m1 d1 y2 m2 d2 : Z) :
  ymd_leb (y1, m1, d1) (y2, m2, d2) = true
  <-> y1 < y2 \/ (y1 = y2 /\ (m1 < m2 \/ (m1 = m2 /\ d1 <= d2))).
Proof.
  unfold ymd_leb.
  rewrite !orb_true_iff, !andb_true_iff, !orb_true_iff, !andb_true_iff,
    !Z.ltb_lt, !Z.eqb_eq, Z.leb_le. tauto.
Qed.

(** Comparing two dates by year, month and day, as [date.__le__] does, is
    comparing their ordinals. *)
Lemma leb_ymd_leb (a b : date) :
  date_valid a -> date_valid b ->
  leb a b = ymd_leb (ord2ymd (toordinal a)) (ord2ymd (toordinal b)).
Proof.
  intros Ha Hb. unfold leb.
  destruct (ord2ymd_ymd2ord _ Ha) as (y1 & m1 & d1 & -> & Hc1 & Ho1).
  destruct (ord2ymd_ymd2ord _ Hb) as (y2 & m2 & d2 & -> & Hc2 & Ho2).
  apply eq_true_iff_eq. rewrite Z.leb_le, ymd_leb_spec, <- Ho1, <- Ho2.
  split.
  - intros Hle.
    destruct (Z.lt_trichotomy y1 y2) as [?|[->|Hy]]; [by left|right|exfalso].
    + split; [done|].
      destruct (Z.lt_trichotomy m1 m2) as [?|[->|Hm]]; [by left|right|exfalso].
      * split; [done|]. destruct (Z.le_gt_cases d1 d2) as [?|Hd]; [done|exfalso].
        pose proof (ymd2ord_lt y2 m2 d2 y2 m2 d1 Hc2 Hc1). lia.
      * pose proof (ymd2ord_lt y2 m2 d2 y2 m1 d1 Hc2 Hc1). lia.
    + pose proof (ymd2ord_lt y2 m2 d2 y1 m1 d1 Hc2 Hc1). lia.
  - intros Hle.
    destruct (decide (d1 = d2 /\ m1 = m2 /\ y1 = y2)) as [(-> & -> & ->)|Hne]; [lia|].
    apply Z.lt_le_incl, ymd2ord_lt; [done..|]. lia.
Qed.

(** The two conversions are inverse to each other on the dates. *)
Lemma ymd2ord_ord2ymd (y m d : Z) :
  check_date_fields y m d = true ->
  1 <= ymd2ord y m d <= MAXORDINAL /\ ord2ymd (ymd2ord y m d) = (y, m, d).
Proof.
  intros Hc.
  assert (1 <= ymd2ord y m d <= MAXORDINAL) as Hrange.
  { pose proof Hc as (Hy & Hm & Hd)%check_date_fields_elim.
    pose proof (day_of_year_bounds y m d Hm Hd).
    pose proof (days_before_year_succ y).
    pose proof (days_before_year_mono 1 y ltac:(lia)).
    pose proof (days_before_year_mono (y + 1) 10000 ltac:(lia)).
    change (days_before_year 1) with 0 in *.
    change (days_before_year 10000) with 3652059 in *.
    unfold ymd2ord, MAXORDINAL. lia. }
  split; [done|].
  destruct (ord2ymd_ymd2ord _ Hrange) as (y' & m' & d' & -> & Hc' & Ho).
  destruct (decide (y' = y /\ m' = m /\ d' = d)) as [(-> & -> & ->)|Hne]; [done|].
  exfalso.
  assert (y' < y \/ (y' = y /\ (m' < m \/ (m' = m /\ d' < d)))
          \/ y < y' \/ (y = y' /\ (m < m' \/ (m = m' /\ d < d')))) as Hcases by lia.
  destruct Hcases as [H|[H|[H|H]]].
  - pose proof (ymd2ord_lt y' m' d' y m d Hc' Hc). lia.
  - pose proof (ymd2ord_lt y' m' d' y m d Hc' Hc). lia.
  - pose proof (ymd2ord_lt y m d y' m' d' Hc Hc'). lia.
  - pose proof (ymd2ord_lt y m d y' m' d' Hc Hc'). lia.
Qed.

End calendar_order.

(** ** [isoformat] can be read back *)

Section isoformat.
Local Arguments String.append : simpl nomatch.

Lemma digit_value_digit (k : Z) : digit_value (Fmt.digit k) = k mod 10.
Proof.
  unfold Fmt.digit. pose proof (Z.mod_pos_bound k 10 ltac:(lia)) as Hr.
  assert (k mod 10 = 0 \/ k mod 10 = 1 \/ k mod 10 = 2 \/ k mod 10 = 3
          \/ k mod 10 = 4 \/ k mod 10 = 5 \/ k mod 10 = 6 \/ k mod 10 = 7
          \/ k mod 10 = 8 \/ k mod 10 = 9) as Hcases by lia.
  destruct_or?; rewrite Hcases; reflexivity.
Qed.

Lemma digits_last (fuel : nat) (n : Z) (acc : string) :
  n < 10 -> Fmt.digits (S fuel) n acc = String (Fmt.digit n) acc.
Proof. intros H. simpl. by rewrite (proj2 (Z.ltb_lt _ _) H). Qed.

Lemma digits_more (fuel : nat) (n : Z) (acc : string) :
  10 <= n -> Fmt.digits (S fuel) n acc = Fmt.digits fuel (n / 10) (String (Fmt.digit n) acc).
Proof. intros H. simpl. by rewrite (proj2 (Z.ltb_ge _ _) H). Qed.

(** [%04d] of a year: four digits that read back as the year. *)
Lemma zpad4_spec (y : Z) :
  1 <= y <= 9999 ->
  exists a b c d, Fmt.zpad 4 y = String a (String b (String c (String d "")))
    /\ read_decimal (Fmt.zpad 4 y) = y.
Proof.
  intros Hy. unfold Fmt.zpad, Fmt.str_nonneg.
  rewrite (proj2 (Z.ltb_ge _ _)) by lia.
  assert (y < 10 \/ 10 <= y < 100 \/ 100 <= y < 1000 \/ 1000 <= y) as Hsize by lia.
  destruct Hsize as [H|[H|[H|H]]].
  - rewrite digits_last by lia. do 4 eexists. split; [reflexivity|].
    cbn [String.length Nat.sub Fmt.zeros]. unfold read_decimal.
    change (digit_value "0") with 0. rewrite digit_value_digit.
    Z.div_mod_to_equations; lia.
  - pose proof (Z.log2_le_mono 8 y ltac:(lia)) as Hlog. change (Z.log2 8) with 3 in Hlog.
    destruct (Z.to_nat (Z.log2 y)) as [|f] eqn:Hf; [lia|].
    rewrite digits_more, digits_last by (try apply Z.div_lt_upper_bound; lia).
    do 4 eexists. split; [reflexivity|].
    cbn [String.length Nat.sub Fmt.zeros]. unfold read_decimal.
    change (digit_value "0") with 0. rewrite !digit_value_digit.
    Z.div_mod_to_equations; lia.
  - pose proof (Z.log2_le_mono 64 y ltac:(lia)) as Hlog. change (Z.log2 64) with 6 in Hlog.
    destruct (Z.to_nat (Z.log2 y)) as [|[|f]] eqn:Hf; [lia..|].
    rewrite !digits_more, digits_last
      by (repeat (try apply Z.div_lt_upper_bound; try apply Z.div_le_lower_bound); lia).
    do 4 eexists. split; [reflexivity|].
    cbn [String.length Nat.sub Fmt.zeros]. unfold read_decimal.
    change (digit_value "0") with 0. rewrite !digit_value_digit.
    Z.div_mod_to_equations; lia.
  - pose proof (Z.log2_le_mono 512 y ltac:(lia)) as Hlog. change (Z.log2 512) with 9 in Hlog.
    destruct (Z.to_nat (Z.log2 y)) as [|[|[|f]]] eqn:Hf; [lia..|].
    rewrite !digits_more, digits_last
      by (repeat (try apply Z.div_lt_upper_bound; try apply Z.div_le_lower_bound); lia).
    do 4 eexists. split; [reflexivity|].
    cbn [String.length Nat.sub Fmt.zeros]. unfold read_decimal.
    rewrite !digit_value_digit.
    Z.div_mod_to_equations; lia.
Qed.
Lemma zpad2_table :
  forallb (fun k => (String.length (Fmt.zpad 2 k) =? 2)%nat
                    && (read_decimal (Fmt.zpad 2 k) =? k))
          (seqZ 1 31) = true.
Proof. vm_compute. reflexivity. Qed.

Lemma zpad2_spec (k : Z) :
  1 <= k <= 31 ->
  exists a b, Fmt.zpad 2 k = String a (String b "")
    /\ read_decimal (Fmt.zpad 2 k) = k.
Proof.
  intros Hk. pose proof zpad2_table as Htab. rewrite forallb_forall in Htab.
  specialize (Htab k). rewrite <- list_elem_of_In, elem_of_seqZ in Htab.
  specialize (Htab ltac:(lia)).
  apply andb_true_iff in Htab as [Hlen Hval].
  apply Nat.eqb_eq in Hlen. apply Z.eqb_eq in Hval.
  destruct (Fmt.zpad 2 k) as [|a [|b [|? ?]]]; try discriminate Hlen.
  by exists a, b.
Qed.

(** The ISO string of a date is ten characters, from which the fields of
    the date are read back. *)
Lemma parse_iso_isoformat (d : date) :
  date_valid d ->
  String.length (isoformat d) = 10%nat
  /\ parse_iso (isoformat d) = ord2ymd (toordinal d).
Proof.
  intros Hd. unfold isoformat, year, month, day.
  destruct (ord2ymd_ymd2ord _ Hd) as (y & m & k & -> & Hc & _).
  apply check_date_fields_elim in Hc as (Hy & Hm & Hk). cbn [fst snd].
  assert (1 <= k <= 31) as Hk'.
  { pose proof (day_of_year_bounds y m k Hm Hk).
    unfold days_in_month in Hk.
    destruct ((m =? 2) && is_leap y); [lia|].
    apply month_cases in Hm; destruct_or?; subst m; month_tables; lia. }
  destruct (zpad4_spec y Hy) as (a & b & c & e & Hys & Hyv).
  destruct (zpad2_spec m ltac:(lia)) as (m1 & m2 & Hms & Hmv).
  destruct (zpad2_spec k Hk') as (k1 & k2 & Hks & Hkv).
  rewrite Hys in Hyv |- *. rewrite Hms in Hmv |- *. rewrite Hks in Hkv |- *.
  split; [done|]. simpl. unfold parse_iso. by rewrite Hyv, Hmv, Hkv.
Qed.

Lemma isoformat_inj (a b : date) :
  date_valid a -> date_valid b -> isoformat a = isoformat b -> a = b.
Proof.
  intros Ha Hb Heq.
  pose proof (parse_iso_isoformat a Ha) as [_ Hpa].
  pose proof (parse_iso_isoformat b Hb) as [_ Hpb].
  rewrite Heq, Hpb in Hpa.
  destruct (ord2ymd_ymd2ord _ Ha) as (y & m & k & Hya & _ & Hoa).
  destruct (ord2ymd_ymd2ord _ Hb) as (y' & m' & k' & Hyb & _ & Hob).
  rewrite Hya, Hyb in Hpa. injection Hpa as -> -> ->.
  destruct a, b. simpl in *. congruence.
Qed.

Lemma append_inj_length (s1 s2 t1 t2 : string) :
  String.length s1 = String.length s2 -> s1 ++ t1 = s2 ++ t2 -> s1 = s2.
Proof.
  revert s2. induction s1 as [|c s1 IH]; intros [|c' s2] Hlen Heq; try done.
  simpl in *. injection Heq as -> Heq. f_equal. apply IH; [lia|done].
Qed.

(** Two dates are requested at two different URLs. *)
Lemma url_of_inj (a b : date) :
  date_valid a -> date_valid b -> Fetch.url_of a = Fetch.url_of b -> a = b.
Proof.
  intros Ha Hb Heq. unfold Fetch.url_of in Heq.
  apply String.app_inj, String.app_inj in Heq.
  apply isoformat_inj; [done..|].
  apply append_inj_length in Heq; [done|].
  by rewrite (proj1 (parse_iso_isoformat a Ha)), (proj1 (parse_iso_isoformat b Hb)).
Qed.

End isoformat.

(** ** The content sniff *)

Section sniff.
Import Fetch.

Lemma startswith_app (p r : bytes) : startswith (p ++ r) p = true.
Proof.
  induction p as [|x p IH]; simpl; [done|].
  rewrite IH, andb_true_r. by apply Byte.byte_dec_lb.
Qed.

Lemma startswith_prefix (s p : bytes) :
  startswith s p = true <-> exists r, s = (p ++ r)%list.
Proof.
  split.
  - revert s. induction p as [|x p IH]; intros s Hs; simpl in *; [by exists s|].
    destruct s as [|y s]; [done|].
    apply andb_true_iff in Hs as [Hxy Hs].
    apply Byte.byte_dec_bl in Hxy as ->.
    destruct (IH _ Hs) as [r ->]. by exists r.
  - intros [r ->]. apply startswith_app.
Qed.

Lemma lower_byte_lt (c : byte) : lower_byte c = "<"%byte -> is_space c = false.
Proof. destruct c; vm_compute; congruence. Qed.

Lemma lstrip_not_space (c : byte) (s : bytes) :
  is_space c = false -> lstrip (c :: s) = c :: s.
Proof. intros H. simpl. by rewrite H. Qed.

Lemma lower_app (a b : bytes) : lower (a ++ b) = (lower a ++ lower b)%list.
Proof. apply map_app. Qed.

Lemma length_lower (s : bytes) : length (lower s) = length s.
Proof. apply length_map. Qed.

(** The head the sniff looks at, for a body that starts with [p], where
    [p] is some spelling of a tag that opens with [<]. *)
Lemma head_of_tagged (p r tag : bytes) :
  lower p = ("<"%byte :: tag) -> (length p <= 500)%nat ->
  exists r', lower (slice_to 500 (lstrip (p ++ r))) = (("<"%byte :: tag) ++ r')%list.
Proof.
  intros Hp Hlen. destruct p as [|c p]; [done|].
  injection Hp as Hc Htag.
  change ((c :: p) ++ r)%list with (c :: (p ++ r)%list).
  rewrite lstrip_not_space by by apply lower_byte_lt.
  change (c :: (p ++ r)%list) with ((c :: p) ++ r)%list.
  unfold slice_to. rewrite firstn_app, lower_app.
  rewrite firstn_all2 by exact Hlen.
  eexists. f_equal. simpl. by rewrite Hc; f_equal.
Qed.

End sniff.

(** C2: a body shorter than 100 bytes, the empty one included, is rejected
    by [looks_like_xml]. *)
Theorem looks_like_xml_short (content : bytes) :
  len content < 100 -> Fetch.looks_like_xml content = false.
Proof.
  intros H. unfold Fetch.looks_like_xml.
  apply Z.ltb_lt in H. rewrite H. by rewrite orb_true_r.
Qed.

Lemma looks_like_xml_short_witness :
  len [] < 100 /\ Fetch.looks_like_xml [] = false
  /\ len (lit "<?xml version=1.0?><a/>") < 100
  /\ Fetch.looks_like_xml (lit "<?xml version=1.0?><a/>") = false.
Proof.
  split; [reflexivity|]. split; [apply (looks_like_xml_short []); reflexivity|].
  split; [reflexivity|]. apply (looks_like_xml_short _). reflexivity.
Defined.

(** C3: a body that begins with [<!doctype html] or [<html], in any mix of
    upper and lower case, is rejected by [looks_like_xml], whatever its
    length. *)
Theorem looks_like_xml_html (p r : bytes) :
  lower p = lit "<!doctype html" \/ lower p = lit "<html" ->
  Fetch.looks_like_xml (p ++ r) = false.
Proof.
  intros Hp. unfold Fetch.looks_like_xml.
  destruct (_ || _) eqn:Hguard at 1; [done|].
  assert (exists t r', lower (slice_to 500 (lstrip (p ++ r))) = (t ++ r')%list
            /\ (t = lit "<!doctype html" \/ t = lit "<html")) as (t & r' & -> & Ht).
  { destruct Hp as [Hp|Hp].
    - destruct (head_of_tagged p r (lit "!doctype html")) as [r' Hr']; [done| |].
      { rewrite <- length_lower, Hp. vm_compute. lia. }
      eexists _, r'. split; [exact Hr'|by left].
    - destruct (head_of_tagged p r (lit "html")) as [r' Hr']; [done| |].
      { rewrite <- length_lower, Hp. vm_compute. lia. }
      eexists _, r'. split; [exact Hr'|by right]. }
  destruct Ht as [-> | ->].
  - by rewrite startswith_app.
  - by rewrite startswith_app, orb_true_r.
Qed.

Lemma looks_like_xml_html_witness :
  (lower (lit "<!DOCTYPE Html") = lit "<!doctype html"
   \/ lower (lit "<!DOCTYPE Html") = lit "<html")
  /\ 100 <= len (lit "<!DOCTYPE Html" ++ repeat "x"%byte 200)
  /\ Fetch.looks_like_xml (lit "<!DOCTYPE Html" ++ repeat "x"%byte 200) = false.
Proof.
  split; [left; reflexivity|]. split; [vm_compute; discriminate|].
  apply (looks_like_xml_html (lit "<!DOCTYPE Html") (repeat "x"%byte 200)).
  left. reflexivity.
Defined.

(** The sniff does accept a long enough XML body, also after leading
    white space. *)
Example looks_like_xml_accepts :
  Fetch.looks_like_xml (lit "  <?xml version=1.0?>" ++ repeat "x"%byte 100) = true.
Proof. reflexivity. Qed.

(** ** The fetch loop *)

Section fetch_loop.
Import Fetch.
Variable w : World.
Variable END_DATE : date.

Lemma Date_toordinal (d : date) : Date (toordinal d) = d.
Proof. by destruct d. Qed.

(** One iteration in direct style: the state it leaves, by what the server
    and the file system answer.  It always ends normally. *)
Lemma iteration_run (d : date) (st : State) :
  iteration w d st =
  (Done tt,
   let st1 := emit (Get (url_of d)) st in
   match http_get w (url_of d) with
   | Raise e => emit (Print (warning d e)) st1
   | Ok r =>
       if status_code r =? 404 then (incr_missing st1).2
       else if (status_code r =? 200) && looks_like_xml (content r) then
         let st2 := emit (WriteBytes (out_file_of w d) (content r)) st1 in
         match write_bytes w (out_file_of w d) (content r) with
         | Ok _ =>
             let st3 := emit (Print (saved_line w d)) (incr_saved st2).2 in
             match console w (saved_line w d) with
             | Ok _ => st3
             | Raise e => emit (Print (warning d e)) st3
             end
         | Raise e => emit (Print (warning d e)) st2
         end
       else (incr_missing st1).2
   end).
Proof.
  unfold iteration, try_except, try_body, bind, call, print, call, saved_line.
  fold (url_of d). fold (out_file_of w d).
  destruct (http_get w (url_of d)) as [r|e]; [|done].
  destruct (status_code r =? 404); [done|].
  destruct ((status_code r =? 200) && looks_like_xml (content r)); [|done].
  destruct (write_bytes w _ _); [|done]. cbv zeta.
  by destruct (console w _) as [[]|].
Qed.

(** How the [try] body ends, by the same answers; the state it starts from
    plays no part. *)
Lemma after_try_run (d : date) (st : State) :
  after_try w d st =
  match http_get w (url_of d) with
  | Raise e => Raised e
  | Ok r =>
      if status_code r =? 404 then Done tt
      else if (status_code r =? 200) && looks_like_xml (content r) then
        match write_bytes w (out_file_of w d) (content r) with
        | Ok _ =>
            match console w (saved_line w d) with
            | Ok _ => Done tt
            | Raise e => Raised e
            end
        | Raise e => Raised e
        end
      else Done tt
  end.
Proof.
  unfold after_try, try_body, bind, call, print, call, saved_line.
  destruct (http_get w (url_of d)) as [r|e]; [|done].
  destruct (status_code r =? 404); [done|].
  destruct ((status_code r =? 200) && looks_like_xml (content r)); [|done].
  destruct (write_bytes w _ _); [|done]. by destruct (console w _) as [[]|].
Qed.

(** The exception the [try] body ends with is raised by the request, by
    the file write, or by the [print] of the saved line. *)
Lemma after_try_raised (d : date) (e : exn) (st : State) :
  after_try w d st = Raised e <-> day_raises w d e \/ print_raises w d e.
Proof.
  rewrite after_try_run. unfold day_raises, print_raises. split.
  - destruct (http_get w (url_of d)) as [r|e']; [|intros [= ->]; by left; left].
    destruct (status_code r =? 404) eqn:H404; [done|].
    destruct (status_code r =? 200) eqn:H200; [|done].
    destruct (looks_like_xml (content r)) eqn:Hx; [|done]. simpl.
    apply Z.eqb_eq in H200.
    destruct (write_bytes w _ _) as [[]|e'] eqn:Hw.
    + destruct (console w _) as [|e'] eqn:Hc; [done|]. intros [= ->].
      right. by exists r.
    + intros [= ->]. left. right. by exists r.
  - intros [[->|(r & -> & H200 & Hx & ->)]|(r & -> & H200 & Hx & -> & ->)];
      [done|rewrite H200, Hx; done..].
Qed.

(** The loop, one test at a time. *)
Lemma while_loop_S (fuel : nat) (d : date) (st : State) :
  while_loop w END_DATE (S fuel) d st =
  if leb d END_DATE then
    let st1 := (iteration w d st).2 in
    if (0 <? toordinal d + 1) && (toordinal d + 1 <=? MAXORDINAL)
    then while_loop w END_DATE fuel (Date (toordinal d + 1)) (emit Sleep st1)
    else (Raised (Exception "date value out of range"), st1)
  else (Done tt, st).
Proof.
  simpl. destruct (leb d END_DATE); [|done].
  unfold bind at 1. rewrite iteration_run. cbn [snd].
  unfold bind at 1, add_days.
  destruct ((0 <? toordinal d + 1) && (toordinal d + 1 <=? MAXORDINAL)); done.
Qed.

(** The loop-invariant rule.  [I o st] reads: [st] is the state when the
    loop is about to test the date of ordinal [o].  The loop ends, within
    its budget; it ends normally unless it has just handled [date.max], in
    which case the increment of the date raises [OverflowError]. *)
Lemma while_loop_rule (I : Z -> State -> Prop) (lo : Z) :
  toordinal END_DATE <= MAXORDINAL ->
  (forall o st, lo <= o <= toordinal END_DATE ->
     I o st -> I (o + 1) (iteration w (Date o) st).2) ->
  (forall o st, I o st -> I o (emit Sleep st)) ->
  forall (n fuel : nat) (d : date) (st : State),
    1 <= toordinal d -> lo <= toordinal d ->
    Z.to_nat (toordinal END_DATE - toordinal d + 1) = n -> (n < fuel)%nat ->
    I (toordinal d) st ->
    exists st',
      while_loop w END_DATE fuel d st =
        (if leb d END_DATE && (toordinal END_DATE =? MAXORDINAL)
         then Raised (Exception "date value out of range") else Done tt, st')
      /\ I (Z.max (toordinal d) (toordinal END_DATE + 1)) st'.
Proof.
  intros Hmax Hstep Hsleep n.
  induction n as [|n IH]; intros fuel d st Hd Hlo Hn Hfuel HI;
    (destruct fuel as [|fuel]; [lia|]); rewrite while_loop_S; unfold leb.
  - rewrite (proj2 (Z.leb_gt _ _)) by lia. exists st. split; [done|].
    by rewrite Z.max_l by lia.
  - assert (toordinal d <= toordinal END_DATE) as Hle by lia.
    rewrite (proj2 (Z.leb_le _ _) Hle). cbn zeta.
    rewrite (proj2 (Z.ltb_lt 0 _)) by lia. cbn [andb].
    pose proof (Hstep (toordinal d) st ltac:(lia) HI) as HI1.
    rewrite Date_toordinal in HI1.
    destruct (toordinal d + 1 <=? MAXORDINAL) eqn:Hnext.
    + apply Z.leb_le in Hnext.
      destruct (IH fuel (Date (toordinal d + 1)) (emit Sleep (iteration w d st).2))
        as (st' & Hrun & HI'); [cbn [toordinal]; lia..|by apply Hsleep|].
      exists st'. rewrite Hrun. cbn [toordinal] in *. split.
      * unfold leb. cbn [toordinal]. f_equal.
        destruct (toordinal END_DATE =? MAXORDINAL) eqn:Hend;
          [apply Z.eqb_eq in Hend; rewrite (proj2 (Z.leb_le _ _)) by lia; done|].
        by rewrite !andb_false_r.
      * by replace (Z.max (toordinal d) (toordinal END_DATE + 1))
          with (Z.max (toordinal d + 1) (toordinal END_DATE + 1)) by lia.
    + apply Z.leb_gt in Hnext.
      exists (iteration w d st).2. rewrite (proj2 (Z.eqb_eq _ _)) by lia.
      split; [done|]. by replace (Z.max _ _) with (toordinal d + 1) by lia.
Qed.

(** The same for [main_loop], whose budget is enough. *)
Lemma main_loop_rule (I : Z -> State -> Prop) (START : date) (st : State) :
  date_valid START -> date_valid END_DATE ->
  (forall o st, toordinal START <= o <= toordinal END_DATE ->
     I o st -> I (o + 1) (iteration w (Date o) st).2) ->
  (forall o st, I o st -> I o (emit Sleep st)) ->
  I (toordinal START) st ->
  exists st',
    main_loop w END_DATE START st =
      (if leb START END_DATE && (toordinal END_DATE =? MAXORDINAL)
       then Raised (Exception "date value out of range") else Done tt, st')
    /\ I (Z.max (toordinal START) (toordinal END_DATE + 1)) st'.
Proof.
  intros [HS _] [_ HE] Hstep Hsleep HI. unfold main_loop.
  eapply (while_loop_rule I (toordinal START)); eauto; lia.
Qed.

(** The loop ends within the budget [main_loop] gives it, and a larger
    budget changes nothing. *)
Lemma main_loop_terminates (START : date) (st : State) :
  date_valid START -> date_valid END_DATE ->
  (main_loop w END_DATE START st).1 <> OutOfFuel.
Proof.
  intros HS HE.
  destruct (main_loop_rule (fun _ _ => True) START st HS HE) as (st' & -> & _);
    [done..|].
  cbn [fst]. by destruct (_ && _).
Qed.

Lemma while_loop_more_fuel (fuel k : nat) (d : date) (st : State) :
  (while_loop w END_DATE fuel d st).1 <> OutOfFuel ->
  while_loop w END_DATE (fuel + k) d st = while_loop w END_DATE fuel d st.
Proof.
  revert d st. induction fuel as [|fuel IH]; intros d st; [done|].
  change (S fuel + k)%nat with (S (fuel + k)). rewrite !while_loop_S.
  destruct (leb d END_DATE); [|done]. cbv zeta.
  destruct (_ && _); [|done]. apply IH.
Qed.

End fetch_loop.

(** *** What one iteration adds to the trace and to the counters *)

Section fetch_iteration.
Import Fetch.
Variable w : World.

(** Membership in an explicit list of events, by cases. *)
Ltac no_write H := set_unfold in H; destruct_or?; simplify_eq; try done.

Lemma trace_emit (ev : event) (st : State) :
  trace (emit ev st) = (trace st ++ [ev])%list.
Proof. done. Qed.

Lemma gets_app (tr1 tr2 : list event) : gets (tr1 ++ tr2) = (gets tr1 ++ gets tr2)%list.
Proof. apply omap_app. Qed.

(** The events of the iteration of date [d]: one request, for the URL of
    [d]; they end with the warning when the day raises; a write among them
    is the write of an accepted body to the file of [d]. *)
Lemma iteration_events (d : date) (st : State) :
  exists evs : list event,
    trace (iteration w d st).2 = (trace st ++ evs)%list
    /\ gets evs = [url_of d]
    /\ (forall e, day_raises w d e ->
          exists evs0, evs = (evs0 ++ [Print (warning d e)])%list)
    /\ (forall file data, WriteBytes file data ∈ evs ->
          exists r, http_get w (url_of d) = Ok r
            /\ status_code r = 200 /\ looks_like_xml (content r) = true
            /\ file = out_file_of w d /\ data = content r).
Proof.
  rewrite iteration_run. cbn [snd]. unfold day_raises.
  destruct (http_get w (url_of d)) as [r|e] eqn:Hget.
  - destruct (status_code r =? 404) eqn:H404.
    { exists [Get (url_of d)]. simpl. split; [done|]. split; [done|]. split.
      - intros e [?|(r' & [= <-] & H200 & _)]; [done|]. rewrite H200 in H404. done.
      - intros ?? Hin. no_write Hin. }
    destruct (status_code r =? 200) eqn:H200; cycle 1.
    { exists [Get (url_of d)]. simpl. split; [done|]. split; [done|]. split.
      - intros e [?|(r' & [= <-] & H200' & _)]; [done|]. rewrite H200' in H200. done.
      - intros ?? Hin. no_write Hin. }
    destruct (looks_like_xml (content r)) eqn:Hx; cycle 1.
    { exists [Get (url_of d)]. simpl. split; [done|]. split; [done|]. split.
      - intros e [?|(r' & [= <-] & _ & Hx' & _)]; [done|]. congruence.
      - intros ?? Hin. no_write Hin. }
    apply Z.eqb_eq in H200. cbn [andb]. cbv zeta.
    destruct (write_bytes w _ _) as [[]|e] eqn:Hw.
    + destruct (console w _) as [[]|e].
      * eexists [Get (url_of d); WriteBytes _ _; Print _]. simpl.
        rewrite <- !app_assoc. split; [done|]. split; [done|]. split.
        -- intros e [?|(r' & [= <-] & _ & _ & Hw')]; [done|]. congruence.
        -- intros ?? Hin. no_write Hin. by exists r.
      * eexists [Get (url_of d); WriteBytes _ _; Print _; Print _]. simpl.
        rewrite <- !app_assoc. split; [done|]. split; [done|]. split.
        -- intros e' [?|(r' & [= <-] & _ & _ & Hw')]; [done|]. congruence.
        -- intros ?? Hin. no_write Hin. by exists r.
    + eexists [Get (url_of d); WriteBytes _ _; Print _]. simpl.
      rewrite <- !app_assoc. split; [done|]. split; [done|]. split.
      * intros e' [?|(r' & [= <-] & _ & _ & Hw')]; [done|].
        rewrite Hw in Hw'. injection Hw' as <-. by eexists [_; _].
      * intros ?? Hin. no_write Hin. by exists r.
  - exists [Get (url_of d); Print (warning d e)]. simpl.
    rewrite <- !app_assoc. split; [done|]. split; [done|]. split.
    + intros e' [[= <-]|(r' & [=] & _)]. by exists [Get (url_of d)].
    + intros ?? Hin. no_write Hin.
Qed.

(** The counters after the iteration of date [d]: when the request or the
    write raises, both are as before; when the [print] of the saved line
    raises, [saved] has been incremented before it. *)
Lemma iteration_counters (d : date) (st : State) :
  let st' := (iteration w d st).2 in
  match after_try w d st with
  | Raised e =>
      (day_raises w d e /\ saved st' = saved st /\ missing st' = missing st)
      \/ (print_raises w d e /\ saved st' = saved st + 1 /\ missing st' = missing st)
  | _ =>
      exists r, http_get w (url_of d) = Ok r
        /\ if (status_code r =? 200) && looks_like_xml (content r)
           then saved st' = saved st + 1 /\ missing st' = missing st
           else saved st' = saved st /\ missing st' = missing st + 1
  end.
Proof.
  rewrite iteration_run, after_try_run. cbn [snd]. unfold day_raises, print_raises.
  destruct (http_get w (url_of d)) as [r|e]; [|by left; split; [left|]].
  destruct (status_code r =? 404) eqn:H404.
  { exists r. split; [done|]. apply Z.eqb_eq in H404.
    rewrite (proj2 (Z.eqb_neq _ 200)) by lia. done. }
  destruct ((status_code r =? 200) && looks_like_xml (content r)) eqn:Hok.
  - apply andb_prop in Hok as [H200%Z.eqb_eq Hx]. cbv zeta.
    destruct (write_bytes w _ _) as [[]|e] eqn:Hw.
    + destruct (console w _) as [[]|e] eqn:Hc.
      * exists r. by rewrite H200, Hx.
      * right. split; [by exists r|done].
    + left. split; [right; by exists r|done].
  - exists r. by rewrite Hok.
Qed.

Lemma request_and_write_pass_spec (d : date) :
  request_and_write_pass w d = true <-> ~ exists e, day_raises w d e.
Proof.
  unfold request_and_write_pass, day_raises.
  destruct (http_get w (url_of d)) as [r|e]; cycle 1.
  { split; [done|]. intros []. exists e. by left. }
  destruct (status_code r =? 200) eqn:H200; cycle 1.
  { split; [|done]. intros _ (e & [?|(r' & [= <-] & H200' & _)]); [done|].
    rewrite H200' in H200. done. }
  destruct (looks_like_xml (content r)) eqn:Hx; cycle 1.
  { split; [|done]. intros _ (e & [?|(r' & [= <-] & _ & Hx' & _)]); [done|].
    congruence. }
  apply Z.eqb_eq in H200. cbn [andb].
  destruct (write_bytes w _ _) as [[]|e] eqn:Hw.
  - split; [|done]. intros _ (e & [?|(r' & [= <-] & _ & _ & Hw')]); [done|].
    congruence.
  - split; [done|]. intros []. exists e. right. by exists r.
Qed.

Lemma iteration_counters_sum (d : date) (st : State) :
  let st' := (iteration w d st).2 in
  saved st' + missing st' =
    saved st + missing st + (if request_and_write_pass w d then 1 else 0).
Proof.
  rewrite iteration_run. cbn [snd]. unfold request_and_write_pass.
  destruct (http_get w (url_of d)) as [r|e]; [|simpl; lia].
  destruct (status_code r =? 404) eqn:H404.
  { apply Z.eqb_eq in H404. rewrite (proj2 (Z.eqb_neq _ 200)) by lia. simpl. lia. }
  destruct ((status_code r =? 200) && looks_like_xml (content r)); [|simpl; lia].
  cbv zeta. destruct (write_bytes w _ _); [|simpl; lia].
  destruct (console w _); simpl; lia.
Qed.

End fetch_iteration.

(** *** The days of a range *)

Lemma days_snoc (a : date) (o : Z) :
  toordinal a <= o ->
  Fetch.days a (Date o) = (Fetch.days a (Date (o - 1)) ++ [Date o])%list.
Proof.
  intros H. unfold Fetch.days. cbn [toordinal].
  replace (o - toordinal a + 1) with ((o - 1 - toordinal a + 1) + 1) by lia.
  rewrite seqZ_app by lia. rewrite fmap_app. f_equal.
  rewrite seqZ_cons, seqZ_nil by lia. simpl. do 2 f_equal. lia.
Qed.

Lemma days_empty (a b : date) : toordinal b < toordinal a -> Fetch.days a b = [].
Proof. intros H. unfold Fetch.days. by rewrite seqZ_nil by lia. Qed.

Lemma elem_of_days (a b d : date) :
  d ∈ Fetch.days a b <-> toordinal a <= toordinal d <= toordinal b.
Proof.
  unfold Fetch.days. rewrite list_elem_of_fmap. setoid_rewrite elem_of_seqZ. split.
  - intros (o & -> & Ho). simpl. lia.
  - intros H. exists (toordinal d). split; [by destruct d|lia].
Qed.

Lemma NoDup_days (a b : date) : NoDup (Fetch.days a b).
Proof.
  unfold Fetch.days. apply NoDup_fmap_2; [|apply NoDup_seqZ]. by intros ?? [=].
Qed.

Lemma length_days (a b : date) :
  length (Fetch.days a b) = Z.to_nat (toordinal b - toordinal a + 1).
Proof. unfold Fetch.days. by rewrite length_fmap, length_seqZ. Qed.

Lemma days_ascending (a b : date) :
  StronglySorted (fun d1 d2 => toordinal d1 < toordinal d2) (Fetch.days a b).
Proof.
  unfold Fetch.days. generalize (toordinal b - toordinal a + 1) as n.
  generalize (toordinal a) as m. intros m n. revert m.
  induction (Z.to_nat n) as [|k IH] eqn:Hk using nat_ind in n |- *; intros m.
  - rewrite seqZ_nil by lia. constructor.
  - rewrite seqZ_cons by lia. simpl. constructor.
    + apply IH. lia.
    + apply Forall_fmap, Forall_seqZ. intros o Ho. simpl. lia.
Qed.

(** *** The claims about the fetch loop *)

(** C1: for start <= end, the loop issues exactly one GET per calendar day
    from start to end inclusive, in ascending order of date: the URLs
    requested are those of the days of the range, day by day; that list of
    days is strictly ascending, has no repetition and holds exactly the
    dates between start and end; no URL is requested twice. *)
Theorem fetch_one_request_per_day
    (w : Fetch.World) (START END_DATE : date) (st : Fetch.State) :
  date_valid START -> date_valid END_DATE ->
  toordinal START <= toordinal END_DATE ->
  let st' := (Fetch.main_loop w END_DATE START st).2 in
  Fetch.gets (trace st')
    = (Fetch.gets (trace st) ++ (Fetch.url_of <$> Fetch.days START END_DATE))%list
  /\ (forall d, d ∈ Fetch.days START END_DATE
        <-> toordinal START <= toordinal d <= toordinal END_DATE)
  /\ NoDup (Fetch.days START END_DATE)
  /\ NoDup (Fetch.url_of <$> Fetch.days START END_DATE)
  /\ StronglySorted (fun d1 d2 => toordinal d1 < toordinal d2)
       (Fetch.days START END_DATE)
  /\ Z.of_nat (length (Fetch.days START END_DATE))
       = toordinal END_DATE - toordinal START + 1.
Proof.
  intros HS HE Hle st'. split; [|split; [|split; [|split; [|split]]]].
  - destruct (main_loop_rule w END_DATE
      (fun o s => Fetch.gets (trace s)
         = (Fetch.gets (trace st)
            ++ (Fetch.url_of <$> Fetch.days START (Date (o - 1))))%list)
      START st HS HE) as (s' & Hrun & HI).
    + intros o s Ho Hs.
      destruct (iteration_events w (Date o) s) as (evs & -> & Hevs & _).
      replace (o + 1 - 1) with o by lia.
      rewrite gets_app, Hs, Hevs, (days_snoc START o) by lia.
      by rewrite fmap_app, <- app_assoc.
    + intros o s Hs. rewrite trace_emit, gets_app, Hs. simpl. by rewrite app_nil_r.
    + rewrite days_empty by (simpl; lia). simpl. by rewrite app_nil_r.
    + subst st'. rewrite Hrun. cbn [snd]. rewrite HI.
      rewrite Z.max_r by lia.
      replace (toordinal END_DATE + 1 - 1) with (toordinal END_DATE) by lia.
      by rewrite Date_toordinal.
  - intros d. apply elem_of_days.
  - apply NoDup_days.
  - apply NoDup_fmap_2_strong; [|apply NoDup_days].
    intros a b Ha%elem_of_days Hb%elem_of_days.
    apply url_of_inj; unfold date_valid in *; lia.
  - apply days_ascending.
  - rewrite length_days. lia.
Qed.

Lemma fetch_one_request_per_day_witness :
  let END_DATE := of_ymd 2026 1 4 in
  Fetch.gets (trace (Fetch.main_loop Fetch.sample_world END_DATE
                       Fetch.START_DATE Fetch.init).2)
  = Fetch.url_of <$> Fetch.days Fetch.START_DATE END_DATE.
Proof.
  intros END_DATE.
  refine (proj1 (fetch_one_request_per_day Fetch.sample_world Fetch.START_DATE
                   END_DATE Fetch.init _ _ _));
    vm_compute; intuition discriminate.
Defined.

(** C7: when the request or the file write of a date of the range raises,
    the exception does not leave the iteration: the iteration ends
    normally, the message for that date is printed, and after it the loop
    requests every remaining date up to the end date, in order. *)
Theorem fetch_exception_is_caught
    (w : Fetch.World) (START END_DATE d : date) (e : exn) (st : Fetch.State) :
  date_valid START -> date_valid END_DATE ->
  toordinal START <= toordinal d <= toordinal END_DATE ->
  Fetch.day_raises w d e ->
  (forall st1, (Fetch.iteration w d st1).1 = Done tt)
  /\ exists pre post,
       trace (Fetch.main_loop w END_DATE START st).2
         = (pre ++ Print (Fetch.warning d e) :: post)%list
       /\ Fetch.gets post
          = Fetch.url_of <$> Fetch.days (Date (toordinal d + 1)) END_DATE.
Proof.
  intros HS HE Hd Hraise. split; [intros st1; by rewrite iteration_run|].
  destruct (main_loop_rule w END_DATE
    (fun o s => toordinal d < o ->
       exists pre post,
         trace s = (pre ++ Print (Fetch.warning d e) :: post)%list
         /\ Fetch.gets post
            = Fetch.url_of <$> Fetch.days (Date (toordinal d + 1)) (Date (o - 1)))
    START st HS HE) as (s' & Hrun & HI).
  - intros o s Ho Hs Hlt.
    destruct (iteration_events w (Date o) s) as (evs & -> & Hgets & Hwarn & _).
    destruct (decide (o = toordinal d)) as [->|Hne].
    + rewrite Date_toordinal in Hwarn. destruct (Hwarn e Hraise) as [evs0 ->].
      exists (trace s ++ evs0)%list, []. rewrite <- app_assoc. split; [done|].
      by rewrite days_empty by (simpl; lia).
    + destruct Hs as (pre & post & -> & Hpost); [lia|].
      exists pre, (post ++ evs)%list. split; [by rewrite <- app_assoc|].
      replace (o + 1 - 1) with o by lia.
      rewrite gets_app, Hpost, Hgets, (days_snoc _ o) by (simpl; lia).
      by rewrite fmap_app.
  - intros o s Hs Hlt. destruct (Hs Hlt) as (pre & post & Htr & Hpost).
    exists pre, (post ++ [Sleep])%list. rewrite trace_emit, Htr, <- app_assoc.
    split; [done|]. rewrite gets_app, Hpost. simpl. by rewrite app_nil_r.
  - lia.
  - rewrite Hrun. cbn [snd]. rewrite Z.max_r in HI by lia.
    destruct HI as (pre & post & Htr & Hpost); [lia|].
    exists pre, post. split; [done|]. rewrite Hpost.
    replace (toordinal END_DATE + 1 - 1) with (toordinal END_DATE) by lia.
    by rewrite Date_toordinal.
Qed.

Lemma fetch_exception_is_caught_witness :
  let END_DATE := of_ymd 2026 1 5 in
  let d := of_ymd 2026 1 3 in
  exists pre post,
    trace (Fetch.main_loop Fetch.sample_world END_DATE Fetch.START_DATE Fetch.init).2
      = (pre ++ Print (Fetch.warning d (Exception "timed out")) :: post)%list
    /\ Fetch.gets post = Fetch.url_of <$> Fetch.days (Date (toordinal d + 1)) END_DATE.
Proof.
  intros END_DATE d.
  refine (proj2 (fetch_exception_is_caught Fetch.sample_world Fetch.START_DATE
                   END_DATE d (Exception "timed out") Fetch.init _ _ _ _)).
  - vm_compute; intuition discriminate.
  - vm_compute; intuition discriminate.
  - vm_compute; intuition discriminate.
  - left. reflexivity.
Defined.

(** A write recorded during the loop is the write of an accepted body to
    the file of a date of the range. *)
Lemma main_loop_writes
    (w : Fetch.World) (START END_DATE : date) (st : Fetch.State)
    (file : path) (data : bytes) :
  date_valid START -> date_valid END_DATE ->
  WriteBytes file data ∈ trace (Fetch.main_loop w END_DATE START st).2 ->
  WriteBytes file data ∈ trace st
  \/ exists d r,
       toordinal START <= toordinal d <= toordinal END_DATE
       /\ Fetch.http_get w (Fetch.url_of d) = Ok r
       /\ Fetch.status_code r = 200
       /\ Fetch.looks_like_xml (Fetch.content r) = true
       /\ file = Fetch.out_file_of w d
       /\ data = Fetch.content r.
Proof.
  intros HS HE.
  destruct (main_loop_rule w END_DATE
    (fun o s => WriteBytes file data ∈ trace s ->
       WriteBytes file data ∈ trace st
       \/ exists d r,
            toordinal START <= toordinal d < o
            /\ Fetch.http_get w (Fetch.url_of d) = Ok r
            /\ Fetch.status_code r = 200
            /\ Fetch.looks_like_xml (Fetch.content r) = true
            /\ file = Fetch.out_file_of w d
            /\ data = Fetch.content r)
    START st HS HE) as (s' & Hrun & HI).
  - intros o s Ho Hs.
    destruct (iteration_events w (Date o) s) as (evs & -> & _ & _ & Hw).
    intros [Hin|Hin]%elem_of_app.
    + destruct (Hs Hin) as [?|(d & r & ? & ?)]; [by left|].
      right. exists d, r. split; [lia|done].
    + destruct (Hw _ _ Hin) as (r & ?). right. exists (Date o), r.
      split; [simpl; lia|done].
  - intros o s Hs. rewrite trace_emit. intros [Hin|Hin]%elem_of_app; [auto|].
    apply list_elem_of_singleton in Hin. done.
  - by left.
  - rewrite Hrun. cbn [snd]. intros Hin.
    destruct (HI Hin) as [?|(d & r & ? & ?)]; [by left|].
    right. exists d, r. split; [lia|done].
Qed.

(** C8: a file is written for a date only when the response for that date
    has status 200 and its body passes [looks_like_xml]; the file is then
    named by the ISO string of the date followed by [_mul@.xml], in the
    output directory, and its contents are the response body, byte for
    byte. *)
Theorem fetch_writes_only_accepted_bodies
    (w : Fetch.World) (END_DATE : date) (file : path) (data : bytes) :
  date_valid END_DATE ->
  WriteBytes file data ∈ trace (Fetch.main w END_DATE Fetch.init).2 ->
  exists d r,
    toordinal Fetch.START_DATE <= toordinal d <= toordinal END_DATE
    /\ Fetch.http_get w (Fetch.url_of d) = Ok r
    /\ Fetch.status_code r = 200
    /\ Fetch.looks_like_xml (Fetch.content r) = true
    /\ file = Child (Child (Path (Fetch.home w)) "2026") (isoformat d ++ "_mul@.xml")
    /\ name_of file = isoformat d ++ "_mul@.xml"
    /\ data = Fetch.content r.
Proof.
  intros HE Hin.
  assert (WriteBytes file data
            ∈ trace (Fetch.main_loop w END_DATE Fetch.START_DATE
                       (emit (Mkdir (Fetch.OUT_DIR w)) Fetch.init)).2) as Hloop.
  { revert Hin. unfold Fetch.main, bind, call at 1.
    destruct (Fetch.mkdir w (Fetch.OUT_DIR w)) as [[]|e].
    - destruct (Fetch.main_loop _ _ _ _) as [[[]|e|msg|] s']; cbn [snd]; try done.
      unfold print, call. cbn [snd]. rewrite !trace_emit.
      intros Hin. set_unfold in Hin. destruct_or?; simplify_eq; done.
    - cbn [snd]. intros Hin. set_unfold in Hin. destruct_or?; simplify_eq; done. }
  apply main_loop_writes in Hloop as [Hpre|Hd];
    [|by destruct Hd as (d & r & ? & ? & ? & ? & -> & ->); exists d, r
     |vm_compute; intuition discriminate|done].
  set_unfold in Hpre. destruct_or?; simplify_eq; done.
Qed.

Lemma fetch_writes_only_accepted_bodies_witness :
  let END_DATE := of_ymd 2026 1 4 in
  let w := Fetch.sample_world in
  exists d r,
    toordinal Fetch.START_DATE <= toordinal d <= toordinal END_DATE
    /\ Fetch.http_get w (Fetch.url_of d) = Ok r
    /\ Fetch.status_code r = 200
    /\ Fetch.looks_like_xml (Fetch.content r) = true
    /\ Child (Child (Path "/home/u") "2026") "2026-01-02_mul@.xml"
       = Child (Child (Path (Fetch.home w)) "2026") (isoformat d ++ "_mul@.xml")
    /\ "2026-01-02_mul@.xml" = isoformat d ++ "_mul@.xml"
    /\ Fetch.sample_body = Fetch.content r.
Proof.
  intros END_DATE w.
  apply (fetch_writes_only_accepted_bodies w END_DATE
           (Child (Child (Path "/home/u") "2026") "2026-01-02_mul@.xml")
           Fetch.sample_body).
  - vm_compute; intuition discriminate.
  - apply list_elem_of_In. vm_compute. tauto.
Defined.

(** C10, as the specification words it, fails: with a console that raises
    on the saved line, the iteration of 2026-01-02 writes the file, adds
    one to [saved], and only then raises in [print]; an exception is raised
    in that iteration and a counter is incremented. *)
Lemma fetch_counters_as_specified_fails :
  ~ Fetch.counters_as_specified Fetch.broken_console_world
      Fetch.START_DATE (of_ymd 2026 1 5) Fetch.init.
Proof.
  intros [Hiter _]. specialize (Hiter (of_ymd 2026 1 2) Fetch.init).
  vm_compute in Hiter. destruct Hiter as [Hsaved _]. discriminate Hsaved.
Qed.

(** C10, amended: an iteration that raises no exception adds one to exactly
    one of the counters, to [saved] when the status is 200 and the sniff
    accepts the body, to [missing] otherwise; an iteration in which the
    request or the file write raises changes neither; an iteration in which
    the [print] of the saved line raises has added one to [saved] before;
    so after the loop [saved + missing] has grown by the number of
    iterations in which neither the request nor the file write raised. *)
Theorem fetch_counters
    (w : Fetch.World) (START END_DATE : date) (st : Fetch.State) :
  date_valid START -> date_valid END_DATE ->
  (forall d st1,
     let st2 := (Fetch.iteration w d st1).2 in
     match Fetch.after_try w d st1 with
     | Raised e =>
         (Fetch.day_raises w d e
          /\ Fetch.saved st2 = Fetch.saved st1
          /\ Fetch.missing st2 = Fetch.missing st1)
         \/ (Fetch.print_raises w d e
             /\ Fetch.saved st2 = Fetch.saved st1 + 1
             /\ Fetch.missing st2 = Fetch.missing st1)
     | _ =>
         exists r, Fetch.http_get w (Fetch.url_of d) = Ok r
           /\ if (Fetch.status_code r =? 200)
                 && Fetch.looks_like_xml (Fetch.content r)
              then Fetch.saved st2 = Fetch.saved st1 + 1
                   /\ Fetch.missing st2 = Fetch.missing st1
              else Fetch.saved st2 = Fetch.saved st1
                   /\ Fetch.missing st2 = Fetch.missing st1 + 1
     end)
  /\ (forall d, Fetch.request_and_write_pass w d = true
               <-> ~ exists e, Fetch.day_raises w d e)
  /\ let st' := (Fetch.main_loop w END_DATE START st).2 in
     Fetch.saved st' + Fetch.missing st'
     = Fetch.saved st + Fetch.missing st
       + Z.of_nat (length (List.filter (Fetch.request_and_write_pass w)
                             (Fetch.days START END_DATE))).
Proof.
  intros HS HE. split; [intros d st1; apply iteration_counters|].
  split; [intros d; apply request_and_write_pass_spec|].
  destruct (main_loop_rule w END_DATE
    (fun o s => Fetch.saved s + Fetch.missing s
       = Fetch.saved st + Fetch.missing st
         + Z.of_nat (length (List.filter (Fetch.request_and_write_pass w)
                               (Fetch.days START (Date (o - 1))))))
    START st HS HE) as (s' & Hrun & HI).
  - intros o s Ho Hs. replace (o + 1 - 1) with o by lia.
    rewrite iteration_counters_sum, Hs, (days_snoc START o) by lia.
    rewrite List.filter_app, length_app. simpl.
    destruct (Fetch.request_and_write_pass w (Date o)); simpl; lia.
  - intros o s Hs. exact Hs.
  - rewrite days_empty by (simpl; lia). simpl. lia.
  - cbv zeta. rewrite Hrun. cbn [snd].
    destruct (Z.le_gt_cases (toordinal START) (toordinal END_DATE)) as [Hle|Hgt].
    + rewrite Z.max_r in HI by lia. rewrite HI.
      replace (toordinal END_DATE + 1 - 1) with (toordinal END_DATE) by lia.
      by rewrite Date_toordinal.
    + rewrite Z.max_l in HI by lia. rewrite HI.
      by rewrite !days_empty by (simpl; lia).
Qed.

Lemma fetch_counters_witness :
  let END_DATE := of_ymd 2026 1 5 in
  let w := Fetch.broken_console_world in
  let st' := (Fetch.main_loop w END_DATE Fetch.START_DATE Fetch.init).2 in
  Fetch.saved st' + Fetch.missing st'
  = 0 + 0 + Z.of_nat (length (List.filter (Fetch.request_and_write_pass w)
                                (Fetch.days Fetch.START_DATE END_DATE))).
Proof.
  intros END_DATE w.
  refine (proj2 (proj2 (fetch_counters w Fetch.START_DATE END_DATE
                          Fetch.init _ _))); vm_compute; intuition discriminate.
Defined.

Example sample_run_counters :
  let st' := (Fetch.main_loop Fetch.sample_world (of_ymd 2026 1 5)
                Fetch.START_DATE Fetch.init).2 in
  Fetch.saved st' = 1 /\ Fetch.missing st' = 3
  /\ List.filter (Fetch.request_and_write_pass Fetch.sample_world)
       (Fetch.days Fetch.START_DATE (of_ymd 2026 1 5))
     = [of_ymd 2026 1 1; of_ymd 2026 1 2; of_ymd 2026 1 4; of_ymd 2026 1 5].
Proof. vm_compute. done. Qed.

(** With the console that raises, the same run counts the same, and the
    iteration of 2026-01-02 is not exception-free. *)
Example broken_console_run_counters :
  let w := Fetch.broken_console_world in
  let st' := (Fetch.main_loop w (of_ymd 2026 1 5) Fetch.START_DATE Fetch.init).2 in
  Fetch.saved st' = 1 /\ Fetch.missing st' = 3
  /\ List.filter (Fetch.exception_free w)
       (Fetch.days Fetch.START_DATE (of_ymd 2026 1 5))
     = [of_ymd 2026 1 1; of_ymd 2026 1 4; of_ymd 2026 1 5].
Proof. vm_compute. done. Qed.

(** ** The order of [str] *)

Section str_order.

Lemma ulit_String (c : ascii) (s : string) : ulit (String c s) = uchar c :: ulit s.
Proof. done. Qed.

Lemma ulit_app (s1 s2 : string) : ulit (s1 ++ s2) = (ulit s1 ++ ulit s2)%list.
Proof.
  induction s1 as [|c s1 IH]; [done|].
  change (String c s1 ++ s2) with (String c (s1 ++ s2)).
  rewrite !ulit_String, IH. done.
Qed.

Lemma length_ulit (s : string) : length (ulit s) = String.length s.
Proof. induction s as [|c s IH]; [done|]. rewrite ulit_String. simpl. by f_equal. Qed.

Lemma ulit_inj (s1 s2 : string) : ulit s1 = ulit s2 -> s1 = s2.
Proof.
  revert s2. induction s1 as [|c1 s1 IH]; intros [|c2 s2]; try done.
  rewrite !ulit_String. intros [= Hc Hs]. f_equal; [|by apply IH].
  unfold uchar in Hc. by rewrite <- (ascii_N_embedding c1), Hc, ascii_N_embedding.
Qed.

Lemma uleb_cons (x y : N) (a b : ustr) :
  uleb (x :: a) (y :: b) = ((x <? y)%N || ((x =? y)%N && uleb a b)).
Proof. done. Qed.

Lemma ule_total : Total ule.
Proof.
  intros a b. unfold ule. revert b. induction a as [|x a IH]; intros [|y b]; simpl; auto.
  destruct (N.ltb_spec x y); [by left|]. destruct (N.ltb_spec y x); [by right|].
  rewrite (proj2 (N.eqb_eq x y)), (proj2 (N.eqb_eq y x)) by lia. simpl. apply IH.
Qed.

Lemma ule_trans : Transitive ule.
Proof.
  intros a b c. unfold ule. revert b c. induction a as [|x a IH]; intros [|y b] [|z c]; simpl; try done.
  destruct (N.ltb_spec x y), (N.ltb_spec y z), (N.ltb_spec x z); simpl;
    try done; try lia;
    destruct (N.eqb_spec x y), (N.eqb_spec y z), (N.eqb_spec x z); simpl;
    try done; try lia.
  apply IH.
Qed.

Lemma ule_antisym : AntiSymm (=) ule.
Proof.
  intros a b. unfold ule. revert b. induction a as [|x a IH]; intros [|y b]; simpl; try done.
  intros Hab Hba.
  destruct (N.ltb_spec x y); destruct (N.ltb_spec y x);
    destruct (N.eqb_spec x y); destruct (N.eqb_spec y x);
    simpl in *; try discriminate; try lia.
  simplify_eq. f_equal. by apply IH.
Qed.

End str_order.

(** ** The regex of the index generator *)

Section regex.
Import Re Generate.
Variable nd : N -> bool.
Local Open Scope list_scope.

(** The atoms match at the start of [s] exactly when [s] begins with a text
    of their shape; the text and the remainder are then returned. *)
Lemma match_atoms_spec (p : list atom) (s m r : ustr) :
  match_atoms nd p s = Some (m, r) <-> s = m ++ r /\ has_shape nd p m = true.
Proof.
  revert s m r. induction p as [|a p IH]; intros s m r; simpl.
  - split.
    + intros [= <- <-]. done.
    + intros [-> Hm]. by destruct m.
  - destruct s as [|c s].
    + split; [done|]. intros [Hs Hm]. destruct m; [done|]. done.
    + destruct (atom_matches nd a c) eqn:Hac.
      * destruct (match_atoms nd p s) as [[m' r']|] eqn:Hrec.
        -- apply IH in Hrec as [-> Hm']. split.
           ++ intros [= <- <-]. simpl. by rewrite Hac, Hm'.
           ++ intros [Hs Hm]. destruct m as [|c' m]; [done|].
              simpl in Hs. injection Hs as <- Hs.
              apply andb_true_iff in Hm as [_ Hm].
              assert (match_atoms nd p (m' ++ r') = Some (m, r)) as Hagain
                by (apply IH; done).
              assert (match_atoms nd p (m' ++ r') = Some (m', r')) as Hfirst
                by (apply IH; done).
              congruence.
        -- split; [done|]. intros [Hs Hm]. destruct m as [|c' m]; [done|].
           simpl in Hs. injection Hs as <- ->.
           apply andb_true_iff in Hm as [_ Hm].
           assert (match_atoms nd p (m ++ r) = Some (m, r)) as Hagain
             by (apply IH; done).
           congruence.
      * split; [done|]. intros [Hs Hm]. destruct m as [|c' m]; [done|].
        simpl in Hs. injection Hs as <- ->.
        apply andb_true_iff in Hm as [Hm _]. congruence.
Qed.

Lemma has_shape_lits (t : string) (m : ustr) :
  has_shape nd (lits t) m = true <-> m = ulit t.
Proof.
  revert m. induction t as [|c t IH]; intros [|c' m]; try done.
  change (lits (String c t)) with (Lit (uchar c) :: lits t). rewrite ulit_String.
  simpl. rewrite andb_true_iff, IH, N.eqb_eq.
  split; [by intros [-> ->]|by intros [= -> ->]].
Qed.

Lemma has_shape_date (g : ustr) :
  has_shape nd (group1 date_pattern) g = true <-> date_shape nd g.
Proof.
  split.
  - intros H. unfold date_pattern, group1 in H.
    repeat match type of H with
    | has_shape _ (_ :: _) ?s = true =>
        destruct s as [|? ?]; [simpl in H; discriminate H|];
        change (has_shape nd (?a :: ?p) (?c :: ?s'))
          with (atom_matches nd a c && has_shape nd p s') in H;
        apply andb_true_iff in H as [? H]
    end.
    destruct g; [|simpl in H; discriminate H].
    repeat match goal with
    | H' : atom_matches _ (Lit ?l) ?c = true |- _ =>
        change ((l =? c)%N = true) in H'; apply N.eqb_eq in H'; subst c
    end.
    do 8 eexists. unfold digit. repeat split; eauto.
  - intros (y1&y2&y3&y4&m1&m2&d1&d2&Hy1&Hy2&Hy3&Hy4&Hm1&Hm2&Hd1&Hd2&->).
    unfold digit in *. simpl. by rewrite Hy1, Hy2, Hy3, Hy4, Hm1, Hm2, Hd1, Hd2.
Qed.

Lemma length_date_shape (g : ustr) : date_shape nd g -> length g = 10%nat.
Proof. by intros (y1&y2&y3&y4&m1&m2&d1&d2&_&_&_&_&_&_&_&_&->). Qed.

Lemma at_dollar_spec (r : ustr) :
  at_dollar r = true <-> r = [] \/ r = NEWLINE.
Proof.
  destruct r as [|c [|c' r]]; simpl.
  - split; [by left|done].
  - rewrite N.eqb_eq. unfold NEWLINE.
    split; [intros ->; by right|by intros [|[= ->]]].
  - split; [done|by intros [|]].
Qed.

(** The pattern matches at the very start of [s] when [s] is a date
    substring, the suffix, and then nothing or one final newline. *)
Lemma match_here_spec (s g : ustr) :
  match_here nd date_pattern s = Some g
  <-> date_shape nd g /\ (s = g ++ SUFFIX \/ s = g ++ SUFFIX ++ NEWLINE).
Proof.
  unfold match_here. split.
  - destruct (match_atoms nd _ s) as [[g' r]|] eqn:H1; [|done].
    apply match_atoms_spec in H1 as [-> Hg'].
    destruct (match_atoms nd _ r) as [[m r']|] eqn:H2; [|done].
    apply match_atoms_spec in H2 as [-> Hm]. apply has_shape_lits in Hm as ->.
    destruct (at_dollar r') eqn:Hr'; [|done]. intros [= ->].
    apply has_shape_date in Hg'. split; [done|].
    apply at_dollar_spec in Hr' as [-> | ->]; [left|right]; [|done].
    by rewrite app_nil_r.
  - intros [Hg Hs]. apply has_shape_date in Hg.
    assert (exists r', s = g ++ SUFFIX ++ r' /\ at_dollar r' = true) as (r' & -> & Hr').
    { destruct Hs as [-> | ->]; [exists []|exists NEWLINE]; [|done].
      by rewrite app_nil_r. }
    rewrite (proj2 (match_atoms_spec _ _ g (SUFFIX ++ r'))) by done.
    rewrite (proj2 (match_atoms_spec _ _ SUFFIX r'))
      by (split; [done|by apply has_shape_lits]).
    by rewrite Hr'.
Qed.

Lemma search_unfold (p : pattern) (s : ustr) :
  search nd p s =
  match match_here nd p s with
  | Some g => Some g
  | None => match s with [] => None | _ :: s' => search nd p s' end
  end.
Proof. by destruct s. Qed.

(** A match found by [search] is a match at the start of some suffix. *)
Lemma search_Some (p : pattern) (s g : ustr) :
  search nd p s = Some g ->
  exists pre suf, s = pre ++ suf /\ match_here nd p suf = Some g.
Proof.
  induction s as [|c s IH]; rewrite search_unfold;
    destruct (match_here nd p _) as [g'|] eqn:Hhere.
  - intros [= ->]. by exists [], [].
  - done.
  - intros [= ->]. by exists [], (c :: s).
  - intros (pre & suf & -> & H)%IH. by exists (c :: pre), suf.
Qed.

(** Two start positions cannot both match: the one match ends at the end
    of the path, or just before its final newline. *)
Lemma match_here_later (c : N) (pre suf g g' : ustr) :
  match_here nd date_pattern suf = Some g ->
  match_here nd date_pattern (c :: pre ++ suf) = Some g' -> False.
Proof.
  intros [Hg Hsuf]%match_here_spec [Hg' Hs]%match_here_spec.
  destruct Hg as (y1&y2&y3&y4&m1&m2&d1&d2&_&_&_&_&_&_&_&_&->).
  destruct Hg' as (z1&z2&z3&z4&n1&n2&e1&e2&_&_&_&_&_&_&_&_&->).
  assert (length (c :: pre ++ suf) <= 20)%nat as Hlen
    by (destruct Hs as [-> | ->]; simpl; lia).
  simpl in Hlen. rewrite length_app in Hlen.
  destruct pre as [|c1 pre]; cycle 1.
  { destruct Hsuf as [-> | ->]; simpl in Hlen; lia. }
  simpl in Hs. destruct Hsuf as [-> | ->]; destruct Hs as [Hs|Hs]; simpl in Hs;
    discriminate Hs.
Qed.

(** [search] finds the date of a path that ends as [$] requires, whatever
    precedes it. *)
Lemma search_intro (pre suf g : ustr) :
  match_here nd date_pattern suf = Some g ->
  search nd date_pattern (pre ++ suf) = Some g.
Proof.
  intros Hsuf. induction pre as [|c pre IH]; rewrite search_unfold.
  - simpl. by rewrite Hsuf.
  - simpl. destruct (match_here nd date_pattern (c :: pre ++ suf)) as [g'|] eqn:Hhere.
    + by destruct (match_here_later c pre suf g g').
    + done.
Qed.

Lemma search_spec (f g : ustr) :
  search nd date_pattern f = Some g <-> dated_at_dollar nd f g.
Proof.
  unfold dated_at_dollar. split.
  - intros (pre & suf & -> & [Hg Hsuf]%match_here_spec)%search_Some.
    split; [done|]. exists pre. by destruct Hsuf as [-> | ->]; [left|right].
  - intros [Hg (pre & Hf)].
    assert (exists suf, f = pre ++ suf /\ match_here nd date_pattern suf = Some g)
      as (suf & -> & Hsuf).
    { destruct Hf as [-> | ->]; eexists; (split; [done|]);
        apply match_here_spec; split; auto. }
    by apply search_intro.
Qed.

(** A path shorter than a date and the suffix has no match. *)
Lemma search_short (f : ustr) :
  (length f < 19)%nat -> search nd date_pattern f = None.
Proof.
  intros Hlen. destruct (search nd date_pattern f) as [g|] eqn:Hf; [|done].
  apply search_spec in Hf as [Hg%length_date_shape (pre & Hf)].
  destruct Hf as [Hf|Hf]; apply (f_equal length) in Hf;
    rewrite !length_app, Hg in Hf; simpl in Hf; lia.
Qed.

(** The digits [0-9] are digits of the class, whatever the database. *)
Lemma is_digit_ascii (c : N) : is_ascii_digit c = true -> is_digit nd c = true.
Proof. unfold is_digit. by intros ->. Qed.

Lemma ascii_date_shape_date_shape (g : ustr) : ascii_date_shape g -> date_shape nd g.
Proof.
  intros (y1&y2&y3&y4&m1&m2&d1&d2&Hy1&Hy2&Hy3&Hy4&Hm1&Hm2&Hd1&Hd2&->).
  unfold digit, is_digit in *. rewrite orb_false_r in *.
  exists y1, y2, y3, y4, m1, m2, d1, d2. unfold digit.
  repeat split; by apply is_digit_ascii.
Qed.

End regex.

(** ** The index of available dates *)

Section index.
Import Re Generate.
Variable nd : N -> bool.
Local Open Scope list_scope.

(** The set the loop over the listing builds. *)
Lemma elem_of_collect (files : list ustr) (g : ustr) :
  g ∈ collect nd files <-> exists f, f ∈ files /\ search nd date_pattern f = Some g.
Proof.
  unfold collect.
  assert (forall acc : gset ustr,
            g ∈ foldl (fun dates f =>
                         match search nd date_pattern f with
                         | Some g => dates ∪ {[ g ]}
                         | None => dates
                         end) acc files
            <-> g ∈ acc \/ exists f, f ∈ files /\ search nd date_pattern f = Some g)
    as Hacc.
  { induction files as [|f files IH]; intros acc; simpl.
    - split; [by left|]. intros [?|(f & []%elem_of_nil & _)]. done.
    - rewrite IH. destruct (search nd date_pattern f) as [g'|] eqn:Hf.
      + rewrite elem_of_union, elem_of_singleton. split.
        * intros [[?| ->]|(f' & ? & ?)]; [by left|right..].
          -- exists f. split; [left|done].
          -- exists f'. split; [by right|done].
        * intros [?|(f' & [->|?]%elem_of_cons & Hf')]; [by left; left|..].
          -- left; right. congruence.
          -- right. by exists f'.
      + split.
        * intros [?|(f' & ? & ?)]; [by left|right]. exists f'. split; [by right|done].
        * intros [?|(f' & [->|?]%elem_of_cons & Hf')]; [by left|congruence|].
          right. by exists f'. }
  rewrite Hacc. split; [intros [[]%not_elem_of_empty|?]; done|by right].
Qed.

Lemma elem_of_sorted (dates : gset ustr) (g : ustr) : g ∈ sorted dates <-> g ∈ dates.
Proof. unfold sorted. by rewrite merge_sort_Permutation, elem_of_elements. Qed.

Lemma sorted_ascending (dates : gset ustr) : StronglySorted ule (sorted dates).
Proof.
  apply (StronglySorted_merge_sort ule (Transitive0 := ule_trans) (Total0 := ule_total)).
Qed.

Lemma sorted_NoDup (dates : gset ustr) : NoDup (sorted dates).
Proof. unfold sorted. rewrite merge_sort_Permutation. apply NoDup_elements. Qed.

(** [sorted] is the only ascending arrangement of the set, so it is the
    list Python's [sorted] returns. *)
Lemma sorted_unique (dates : gset ustr) (l : list ustr) :
  StronglySorted ule l -> l ≡ₚ elements dates -> l = sorted dates.
Proof.
  intros Hl Hperm. apply (StronglySorted_unique ule (AntiSymm0 := ule_antisym));
    [done|apply sorted_ascending|].
  unfold sorted. by rewrite merge_sort_Permutation.
Qed.

Lemma elem_of_sorted_dates (files : list ustr) (g : ustr) :
  g ∈ sorted_dates nd files <-> exists f, f ∈ files /\ dated_at_dollar nd f g.
Proof.
  unfold sorted_dates. rewrite elem_of_sorted, elem_of_collect.
  by setoid_rewrite search_spec.
Qed.

(** For every listing the index is ascending, has no duplicates, and holds
    a date string exactly when some path of the listing is a date substring
    followed by [_mul@.xml] where [$] matches. *)
Lemma sorted_dates_as_computed (files : list ustr) :
  index_as_computed nd files (sorted_dates nd files).
Proof.
  split; [apply sorted_ascending|]. split; [apply sorted_NoDup|].
  intros g. apply elem_of_sorted_dates.
Qed.

(** A path that ends exactly with the suffix is in both readings, and on a
    path that does not end in a newline the two readings agree. *)
Lemma dated_at_end_dollar (f g : ustr) :
  dated_at_end nd f g -> dated_at_dollar nd f g.
Proof. intros [Hg [pre ->]]. split; [done|]. exists pre. by left. Qed.

Lemma dated_at_dollar_end (f g : ustr) :
  last f <> Some (uchar "010") -> dated_at_dollar nd f g -> dated_at_end nd f g.
Proof.
  intros Hlast [Hg (pre & [-> | ->])]; (split; [done|]); [by exists pre|].
  destruct Hlast. unfold NEWLINE. by rewrite !app_assoc, last_snoc.
Qed.

End index.

(** What [main] does once the listing has arrived and the directory is
    there: it writes the JSON text of the sorted dates to [OUTPUT], and
    reports when the write has succeeded. *)
Lemma generate_main_run (nd : N -> bool) (w : Generate.World) (files : list ustr) :
  Generate.list_repo_files w = Ok files ->
  Generate.mkdir w (Path "data") = Ok tt ->
  let out := Generate.sorted_dates nd files in
  exists r,
    Generate.main nd w [] =
    (r, [Print ("Listing files in dataset " ++ Generate.DATASET ++ "...");
         ListRepoFiles Generate.DATASET "dataset" Generate.BRANCH;
         Mkdir (Path "data");
         WriteText Generate.OUTPUT (Json.dumps_indent2 out)]
        ++ match r with
           | Done _ =>
               [Print ("Found " ++ Fmt.str (Z.of_nat (length out))
                       ++ " available debate dates.");
                Print "Wrote: data/available-dates.json"]
           | _ => []
           end)%list.
Proof.
  intros Hw Hmk out. subst out. unfold Generate.main, bind, print, call.
  change (parent_of Generate.OUTPUT) with (Path "data"). rewrite Hw, Hmk. cbv zeta.
  generalize (Generate.sorted_dates nd files). intros out.
  destruct (Generate.write_text w _ _) as [[]|e].
  - exists (Done tt). reflexivity.
  - exists (Raised e). reflexivity.
Qed.

(** The dates of the sample listing, whatever the digits of the
    interpreter: the first two paths match, [notes.txt] is too short to. *)
Lemma sorted_dates_sample_files (nd : N -> bool) :
  Generate.sorted_dates nd Generate.sample_files
  = [ulit "2026-02-01"; ulit "2026-02-03"].
Proof.
  unfold Generate.sorted_dates, Generate.collect, Generate.sample_files.
  cbn [fmap list_fmap foldl].
  rewrite (proj2 (search_spec nd (ulit "2026-02-01_mul@.xml") (ulit "2026-02-01"))).
  2:{ split; [|exists []; by left].
      apply ascii_date_shape_date_shape.
      exists 50%N, 48%N, 50%N, 54%N, 48%N, 50%N, 48%N, 49%N. by repeat split. }
  rewrite (proj2 (search_spec nd (ulit "2026-02-03_mul@.xml") (ulit "2026-02-03"))).
  2:{ split; [|exists []; by left].
      apply ascii_date_shape_date_shape.
      exists 50%N, 48%N, 50%N, 54%N, 48%N, 50%N, 48%N, 51%N. by repeat split. }
  rewrite (search_short nd (ulit "notes.txt")) by (vm_compute; lia).
  vm_compute. reflexivity.
Qed.

(** C4: on the listing [2026-02-01_mul@.xml], [2026-02-03_mul@.xml],
    [notes.txt] the extraction gives the two dates, in order, and the text
    the script writes is the JSON array of the two date strings (laid out
    as [json.dumps] does with [indent=2]); this with the decimal digits of
    any version of the Unicode database. *)
Theorem index_of_sample_listing (nd : N -> bool) :
  let files := ulit <$> ["2026-02-01_mul@.xml"; "2026-02-03_mul@.xml"; "notes.txt"] in
  let q := String Json.quote "" in
  let nl := Json.newline in
  let text := "[" ++ nl ++ "  " ++ q ++ "2026-02-01" ++ q ++ ","
                  ++ nl ++ "  " ++ q ++ "2026-02-03" ++ q ++ nl ++ "]" in
  Generate.sorted_dates nd files = ulit <$> ["2026-02-01"; "2026-02-03"]
  /\ Json.dumps_indent2 (Generate.sorted_dates nd files) = text
  /\ Generate.main nd Generate.sample_world []
     = (Done tt,
        [Print "Listing files in dataset bubcass/oireachtas-debates...";
         ListRepoFiles "bubcass/oireachtas-debates" "dataset" "main";
         Mkdir (Path "data");
         WriteText (Child (Path "data") "available-dates.json") text;
         Print "Found 2 available debate dates.";
         Print "Wrote: data/available-dates.json"]).
Proof.
  intros files q nl text.
  change files with Generate.sample_files.
  split; [apply sorted_dates_sample_files|].
  split; [rewrite sorted_dates_sample_files; vm_compute; reflexivity|].
  unfold Generate.main, bind, print, call. cbn [Generate.list_repo_files Generate.sample_world].
  rewrite sorted_dates_sample_files. vm_compute. reflexivity.
Qed.

(** C5: the claim holds on every listing none of whose paths ends in a
    newline, and the code breaks it on a path that does: the pattern
    anchors the suffix with [$], which also matches just before a final
    newline.  On the listing of the one path [2026-02-01_mul@.xml\n] the
    index holds [2026-02-01] although the suffix is not at the end of that
    path, so the index is not the one the claim describes. *)
Theorem index_holds_date_before_final_newline (nd : N -> bool) :
  let f := (ulit "2026-02-01_mul@.xml" ++ [uchar "010"])%list in
  Generate.sorted_dates nd [f] = [ulit "2026-02-01"]
  /\ ~ Generate.index_as_specified nd [f] (Generate.sorted_dates nd [f]).
Proof.
  intros f.
  assert (Generate.sorted_dates nd [f] = [ulit "2026-02-01"]) as Hout.
  { unfold Generate.sorted_dates, Generate.collect. cbn [foldl].
    rewrite (proj2 (search_spec nd f (ulit "2026-02-01"))); [vm_compute; reflexivity|].
    split; [|exists []; by right].
    apply ascii_date_shape_date_shape.
    exists 50%N, 48%N, 50%N, 54%N, 48%N, 50%N, 48%N, 49%N. by repeat split. }
  split; [exact Hout|]. rewrite Hout. intros (_ & _ & Hiff).
  destruct (proj1 (Hiff (ulit "2026-02-01"))) as (f' & Hf' & _ & pre & Hpre); [by left|].
  apply list_elem_of_singleton in Hf' as ->.
  assert (length pre = 1%nat) as Hlen.
  { apply (f_equal length) in Hpre. rewrite !length_app in Hpre.
    change (19 + 1 = length pre + (10 + 9))%nat in Hpre. lia. }
  destruct pre as [|c [|c' pre]]; [done| |done].
  vm_compute in Hpre. discriminate Hpre.
Qed.

(** Apart from that, the index is as the claim describes it: on a listing
    none of whose paths ends in a newline it is ascending, has no
    duplicates, and holds a date string exactly when some path is that date
    substring followed by the suffix at the end of the path. *)
Lemma index_as_specified_without_final_newline (nd : N -> bool) (files : list ustr) :
  (forall f, f ∈ files -> last f <> Some (uchar "010")) ->
  Generate.index_as_specified nd files (Generate.sorted_dates nd files).
Proof.
  intros Hfiles. split; [apply sorted_ascending|]. split; [apply sorted_NoDup|].
  intros g. rewrite elem_of_sorted_dates. split.
  - intros (f & Hf & Hfg). exists f. split; [done|].
    by apply dated_at_dollar_end; [apply Hfiles|].
  - intros (f & Hf & Hfg). exists f. split; [done|]. by apply dated_at_end_dollar.
Qed.

Lemma index_as_specified_without_final_newline_witness :
  Generate.index_as_specified nd_14 Generate.sample_files
    (Generate.sorted_dates nd_14 Generate.sample_files).
Proof.
  apply index_as_specified_without_final_newline.
  intros f Hf. unfold Generate.sample_files in Hf. cbn [fmap list_fmap] in Hf.
  rewrite !elem_of_cons, elem_of_nil in Hf.
  destruct Hf as [->|[->|[->|[]]]]; vm_compute; discriminate.
Defined.

(** C9: the extraction does not check that the digits are a calendar date,
    nor where the date substring starts: any [dddd-dd-dd] directly before
    the suffix at the end of a path is put in the index, whatever precedes
    it in the path. *)
Theorem index_takes_any_digits (nd : N -> bool) (files : list ustr) (pre g : ustr) :
  Generate.date_shape nd g ->
  (pre ++ g ++ Generate.SUFFIX)%list ∈ files ->
  g ∈ Generate.sorted_dates nd files.
Proof.
  intros Hg Hin. apply elem_of_sorted_dates. eexists. split; [exact Hin|].
  apply dated_at_end_dollar. split; [done|]. by exists pre.
Qed.

Lemma index_takes_any_digits_witness :
  ulit "2026-99-99" ∈ Generate.sorted_dates nd_14 [ulit "2026-99-99_mul@.xml"]
  /\ check_date_fields 2026 99 99 = false
  /\ ulit "2026-02-01" ∈ Generate.sorted_dates nd_14 [ulit "x2026-02-01_mul@.xml"].
Proof.
  split; [|split; [reflexivity|]].
  - apply (index_takes_any_digits nd_14 [ulit "2026-99-99_mul@.xml"] [] (ulit "2026-99-99")).
    + exists 50%N, 48%N, 50%N, 54%N, 57%N, 57%N, 57%N, 57%N.
      repeat split; reflexivity.
    + left.
  - apply (index_takes_any_digits nd_14 [ulit "x2026-02-01_mul@.xml"]
             (ulit "x") (ulit "2026-02-01")).
    + exists 50%N, 48%N, 50%N, 54%N, 48%N, 50%N, 48%N, 49%N.
      repeat split; reflexivity.
    + left.
Defined.

Example index_of_odd_paths :
  Generate.sorted_dates nd_14 [ulit "2026-99-99_mul@.xml"] = [ulit "2026-99-99"]
  /\ Generate.sorted_dates nd_14 [ulit "x2026-02-01_mul@.xml"] = [ulit "2026-02-01"]
  /\ Generate.sorted_dates nd_14
       (ulit <$> ["2026-02-01_mul@.xmlx"; "2026-02-01_mul@xxml"; "2026-2-1_mul@.xml"])
     = [].
Proof. repeat split; vm_compute; reflexivity. Qed.

(** The digits of other scripts are digits of the class: a path dated in
    fullwidth digits is indexed, its date is written to the JSON text as
    [\uxxxx] escapes, and it sorts after the dates in [0-9]. *)
Example index_of_fullwidth_digits :
  let fw := [65298; 65296; 65298; 65302; 45; 65296; 65298; 45; 65296; 65297]%N in
  Generate.sorted_dates nd_14 [(fw ++ Generate.SUFFIX)%list; ulit "2027-01-01_mul@.xml"]
  = [ulit "2027-01-01"; fw]
  /\ Json.encode_str fw
     = String Json.quote
         ("\uff12\uff10\uff12\uff16-\uff10\uff12-\uff10\uff11" ++ String Json.quote "").
Proof. split; vm_compute; reflexivity. Qed.

(** ** The upload script *)

(** C6: when the source directory does not exist the script ends with
    [SystemExit] right after the existence check: no file listing and no
    upload call is made. *)
Theorem upload_exits_when_dir_missing (w : Upload.World) (tr : list event) :
  Upload.dir_exists w = false ->
  Upload.main w tr
    = (Exited ("DAIL_DIR not found: " ++ path_str Upload.DAIL_DIR),
       (tr ++ [Exists Upload.DAIL_DIR])%list)
  /\ (forall ev, ev ∈ trace (Upload.main w []).2 ->
        (forall p q, ev <> Rglob p q)
        /\ (forall a b c n v k, ev <> UploadLargeFolder a b c n v k)).
Proof.
  intros Hw.
  assert (forall tr0, Upload.main w tr0
            = (Exited ("DAIL_DIR not found: " ++ path_str Upload.DAIL_DIR),
               (tr0 ++ [Exists Upload.DAIL_DIR])%list)) as Hrun.
  { intros tr0. unfold Upload.main, bind, call. by rewrite Hw. }
  split; [apply Hrun|]. rewrite Hrun. cbn [snd]. simpl.
  intros ev ->%list_elem_of_singleton. done.
Qed.

Lemma upload_exits_when_dir_missing_witness :
  let w := {| Upload.dir_exists := false;
              Upload.rglob := Ok ["2026-02-01_mul@.xml"];
              Upload.upload_large_folder := Ok tt |} in
  Upload.main w []
  = (Exited ("DAIL_DIR not found: " ++ path_str Upload.DAIL_DIR), [Exists Upload.DAIL_DIR]).
Proof.
  intros w. refine (proj1 (upload_exits_when_dir_missing w [] _)). reflexivity.
Defined.

(** With the directory in place the same world is listed and uploaded. *)
Example upload_runs_when_dir_exists :
  let w := {| Upload.dir_exists := true;
              Upload.rglob := Ok ["2026-02-01_mul@.xml"];
              Upload.upload_large_folder := Ok tt |} in
  Upload.main w []
  = (Done tt,
     [Exists Upload.DAIL_DIR; Rglob Upload.DAIL_DIR "*.xml";
      Print ("Uploading dail from: " ++ path_str Upload.DAIL_DIR);
      Print "XML files found (recursive): 1";
      Print "Example file: 2026-02-01_mul@.xml";
      UploadLargeFolder Upload.REPO_ID Upload.REPO_TYPE
        (path_str Upload.DAIL_DIR) 3 true 60;
      Print "Done."]).
Proof. vm_compute. reflexivity. Qed.

(** * Further properties of the three scripts *)

(** ** More on the content sniff *)

Section sniff_more.
Import Fetch.

Lemma lower_byte_lt_eq (c : byte) : lower_byte c = "<"%byte -> c = "<"%byte.
Proof. destruct c; vm_compute; congruence. Qed.

(** [lstrip] removes a run of white space and stops at the first other byte. *)
Lemma lstrip_split (s : bytes) :
  exists ws, s = (ws ++ lstrip s)%list
    /\ Forall (fun c => is_space c = true) ws
    /\ match lstrip s with [] => True | c :: _ => is_space c = false end.
Proof.
  induction s as [|c s (ws & Hs & Hws & Hhd)]; [by exists []|].
  simpl. destruct (is_space c) eqn:Hc.
  - exists (c :: ws). split; [simpl; congruence|]. split; [by constructor|done].
  - by exists [].
Qed.

Lemma lstrip_spaces (ws s : bytes) :
  Forall (fun c => is_space c = true) ws -> lstrip (ws ++ s) = lstrip s.
Proof. induction 1 as [|c ws Hc _ IH]; [done|]. simpl. by rewrite Hc. Qed.

End sniff_more.

(** X1: a body that [looks_like_xml] accepts has at least 100 bytes and,
    after leading ASCII white space, begins with the byte [<]; so a body of
    white space only, or one that begins with text, is rejected whatever
    its length. *)
Theorem looks_like_xml_true_starts_with_lt (content : bytes) :
  Fetch.looks_like_xml content = true ->
  100 <= len content
  /\ exists ws rest,
       content = (ws ++ "<"%byte :: rest)%list
       /\ Forall (fun c => is_space c = true) ws.
Proof.
  unfold Fetch.looks_like_xml. intros H.
  destruct (len content <? 100) eqn:Hlen; [by rewrite orb_true_r in H|].
  apply Z.ltb_ge in Hlen. split; [done|].
  destruct (_ || _) in H; [done|].
  destruct (startswith _ (lit "<!doctype html") || _) in H; [done|].
  assert (startswith (lower (slice_to 500 (lstrip content))) (lit "<") = true) as Hlt.
  { apply orb_true_iff in H as [H|H]; [|done].
    apply startswith_prefix in H as [r ->]. done. }
  destruct (lstrip_split content) as (ws & Hs & Hws & _).
  destruct (lstrip content) as [|c rest] eqn:Hstrip; [done|].
  simpl in Hlt. apply andb_true_iff in Hlt as [Hc _].
  apply Byte.byte_dec_bl in Hc. symmetry in Hc. apply lower_byte_lt_eq in Hc as ->.
  by exists ws, rest.
Qed.

Lemma looks_like_xml_true_starts_with_lt_witness :
  let body := (lit "  <?xml version=1.0?>" ++ repeat "x"%byte 100)%list in
  100 <= len body
  /\ exists ws rest,
       body = (ws ++ "<"%byte :: rest)%list
       /\ Forall (fun c => is_space c = true) ws.
Proof.
  intros body. apply (looks_like_xml_true_starts_with_lt body). reflexivity.
Defined.

(** X2: leading ASCII white space does not hide an HTML page: a body made
    of white space and then [<!doctype html] or [<html], in any mix of
    upper and lower case, is rejected. *)
Theorem looks_like_xml_html_after_space (ws p r : bytes) :
  Forall (fun c => is_space c = true) ws ->
  lower p = lit "<!doctype html" \/ lower p = lit "<html" ->
  Fetch.looks_like_xml (ws ++ p ++ r) = false.
Proof.
  intros Hws Hp. unfold Fetch.looks_like_xml.
  destruct (_ || _) eqn:Hguard at 1; [done|].
  rewrite (lstrip_spaces ws (p ++ r) Hws).
  assert (exists t r', lower (slice_to 500 (lstrip (p ++ r))) = (t ++ r')%list
            /\ (t = lit "<!doctype html" \/ t = lit "<html")) as (t & r' & -> & Ht).
  { destruct Hp as [Hp|Hp].
    - destruct (head_of_tagged p r (lit "!doctype html")) as [r' Hr']; [done| |].
      { rewrite <- length_lower, Hp. vm_compute. lia. }
      eexists _, r'. split; [exact Hr'|by left].
    - destruct (head_of_tagged p r (lit "html")) as [r' Hr']; [done| |].
      { rewrite <- length_lower, Hp. vm_compute. lia. }
      eexists _, r'. split; [exact Hr'|by right]. }
  destruct Ht as [-> | ->].
  - by rewrite startswith_app.
  - by rewrite startswith_app, orb_true_r.
Qed.

Lemma looks_like_xml_html_after_space_witness :
  Fetch.looks_like_xml
    (lit (String "010" "  ") ++ lit "<HTML" ++ repeat "x"%byte 200) = false.
Proof.
  apply (looks_like_xml_html_after_space (lit (String "010" "  ")) (lit "<HTML")).
  - repeat constructor.
  - right. reflexivity.
Defined.

(** X3: a body of at least 100 bytes that begins, after optional ASCII white
    space, with an XML declaration [<?xml] (in any case) is accepted. *)
Theorem looks_like_xml_declaration (ws p r : bytes) :
  Forall (fun c => is_space c = true) ws ->
  lower p = lit "<?xml" ->
  100 <= len (ws ++ p ++ r) ->
  Fetch.looks_like_xml (ws ++ p ++ r) = true.
Proof.
  intros Hws Hp Hlen. unfold Fetch.looks_like_xml.
  rewrite (proj2 (Z.ltb_ge _ _) Hlen), orb_false_r.
  destruct (ws ++ p ++ r)%list eqn:Hnil at 1.
  { rewrite Hnil in Hlen. unfold len in Hlen. simpl in Hlen. lia. }
  rewrite (lstrip_spaces ws (p ++ r) Hws).
  destruct (head_of_tagged p r (lit "?xml")) as [r' ->]; [done| |].
  { rewrite <- length_lower, Hp. vm_compute. lia. }
  reflexivity.
Qed.

Lemma looks_like_xml_declaration_witness :
  Fetch.looks_like_xml
    (lit "  " ++ lit "<?XML" ++ repeat "x"%byte 100) = true.
Proof.
  apply (looks_like_xml_declaration (lit "  ") (lit "<?XML")).
  - repeat constructor.
  - reflexivity.
  - vm_compute. discriminate.
Defined.

(** ** More on the fetch loop *)

Section fetch_more.
Import Fetch.
Variable w : World.
Variable END_DATE : date.

Lemma iteration_day_events (d : date) (st : State) :
  trace (iteration w d st).2 = (trace st ++ day_events w d)%list.
Proof.
  unfold day_events. rewrite !iteration_run. cbn [snd].
  destruct (http_get w (url_of d)) as [r|e]; [|simpl; by rewrite <- app_assoc].
  destruct (status_code r =? 404); [done|].
  destruct ((status_code r =? 200) && looks_like_xml (content r)); [|done].
  cbv zeta. destruct (write_bytes w _ _); [|simpl; by rewrite <- !app_assoc].
  destruct (console w _); simpl; by rewrite <- !app_assoc.
Qed.

(** The loop rule with two invariants: [P o] before the test of the date
    of ordinal [o], [Q o] between the iteration of the date before and its
    sleep. *)
Lemma while_loop_rule2 (P Q : Z -> State -> Prop) (lo : Z) :
  toordinal END_DATE <= MAXORDINAL ->
  (forall o st, lo <= o <= toordinal END_DATE ->
     P o st -> Q (o + 1) (iteration w (Date o) st).2) ->
  (forall o st, lo < o -> Q o st -> P o (emit Sleep st)) ->
  forall (n fuel : nat) (d : date) (st : State),
    1 <= toordinal d -> lo <= toordinal d ->
    Z.to_nat (toordinal END_DATE - toordinal d + 1) = n -> (n < fuel)%nat ->
    P (toordinal d) st ->
    exists st',
      while_loop w END_DATE fuel d st =
        (if leb d END_DATE && (toordinal END_DATE =? MAXORDINAL)
         then Raised (Exception "date value out of range") else Done tt, st')
      /\ if leb d END_DATE && (toordinal END_DATE =? MAXORDINAL)
         then Q (toordinal END_DATE + 1) st'
         else P (Z.max (toordinal d) (toordinal END_DATE + 1)) st'.
Proof.
  intros Hmax Hstep Hsleep n.
  induction n as [|n IH]; intros fuel d st Hd Hlo Hn Hfuel HP;
    (destruct fuel as [|fuel]; [lia|]); rewrite while_loop_S; unfold leb.
  - rewrite (proj2 (Z.leb_gt _ _)) by lia. exists st. split; [done|].
    cbn [andb]. by rewrite Z.max_l by lia.
  - assert (toordinal d <= toordinal END_DATE) as Hle by lia.
    rewrite (proj2 (Z.leb_le _ _) Hle). cbn zeta.
    rewrite (proj2 (Z.ltb_lt 0 _)) by lia. cbn [andb].
    pose proof (Hstep (toordinal d) st ltac:(lia) HP) as HQ.
    rewrite Date_toordinal in HQ.
    destruct (toordinal d + 1 <=? MAXORDINAL) eqn:Hnext.
    + apply Z.leb_le in Hnext.
      destruct (IH fuel (Date (toordinal d + 1)) (emit Sleep (iteration w d st).2))
        as (st' & Hrun & HI'); [cbn [toordinal]; lia..|cbn [toordinal]; apply Hsleep; [lia|done]|].
      exists st'. rewrite Hrun. unfold leb in *. cbn [toordinal] in *.
      destruct (toordinal END_DATE =? MAXORDINAL) eqn:Hend.
      * apply Z.eqb_eq in Hend.
        rewrite (proj2 (Z.leb_le (toordinal d + 1) _)) in * by lia. done.
      * rewrite !andb_false_r in *. split; [done|].
        by replace (Z.max (toordinal d) (toordinal END_DATE + 1))
          with (Z.max (toordinal d + 1) (toordinal END_DATE + 1)) by lia.
    + apply Z.leb_gt in Hnext.
      exists (iteration w d st).2. rewrite (proj2 (Z.eqb_eq _ _)) by lia.
      split; [done|]. by replace (toordinal END_DATE + 1) with (toordinal d + 1) by lia.
Qed.

Lemma main_loop_rule2 (P Q : Z -> State -> Prop) (START : date) (st : State) :
  date_valid START -> date_valid END_DATE ->
  (forall o st, toordinal START <= o <= toordinal END_DATE ->
     P o st -> Q (o + 1) (iteration w (Date o) st).2) ->
  (forall o st, toordinal START < o -> Q o st -> P o (emit Sleep st)) ->
  P (toordinal START) st ->
  exists st',
    main_loop w END_DATE START st =
      (if leb START END_DATE && (toordinal END_DATE =? MAXORDINAL)
       then Raised (Exception "date value out of range") else Done tt, st')
    /\ if leb START END_DATE && (toordinal END_DATE =? MAXORDINAL)
       then Q (toordinal END_DATE + 1) st'
       else P (Z.max (toordinal START) (toordinal END_DATE + 1)) st'.
Proof.
  intros [HS _] [_ HE] Hstep Hsleep HI. unfold main_loop.
  eapply (while_loop_rule2 P Q (toordinal START)); eauto; lia.
Qed.

(** The trace of the loop, block by block. *)
Lemma main_loop_trace (START : date) (st : State) :
  date_valid START -> date_valid END_DATE ->
  trace (main_loop w END_DATE START st).2
  = (trace st
     ++ if leb START END_DATE && is_max END_DATE
        then flat_map (fun d => day_events w d ++ [Sleep])
               (days START (Date (toordinal END_DATE - 1)))
             ++ day_events w END_DATE
        else flat_map (fun d => day_events w d ++ [Sleep]) (days START END_DATE))%list.
Proof.
  intros HS HE. unfold is_max.
  destruct (main_loop_rule2
    (fun o s => trace s
       = (trace st ++ flat_map (fun d => day_events w d ++ [Sleep])
                        (days START (Date (o - 1))))%list)
    (fun o s => trace s
       = (trace st ++ flat_map (fun d => day_events w d ++ [Sleep])
                        (days START (Date (o - 2)))
          ++ day_events w (Date (o - 1)))%list)
    START st HS HE) as (s' & Hrun & HI).
  - intros o s Ho Hs. rewrite iteration_day_events, Hs, <- app_assoc.
    by replace (o + 1 - 2) with (o - 1) by lia; replace (o + 1 - 1) with o by lia.
  - intros o s Ho Hs. rewrite trace_emit, Hs, <- !app_assoc.
    rewrite (days_snoc START (o - 1)) by lia.
    rewrite flat_map_app. simpl. rewrite app_nil_r, <- ?app_assoc.
    by replace (o - 1 - 1) with (o - 2) by lia.
  - rewrite days_empty by (simpl; lia). simpl. by rewrite app_nil_r.
  - rewrite Hrun. cbn [snd]. destruct (leb START END_DATE && _) eqn:Hcase.
    + rewrite HI. replace (toordinal END_DATE + 1 - 2) with (toordinal END_DATE - 1) by lia.
      replace (toordinal END_DATE + 1 - 1) with (toordinal END_DATE) by lia.
      by rewrite Date_toordinal.
    + rewrite HI. f_equal. f_equal.
      destruct (Z.le_gt_cases (toordinal START) (toordinal END_DATE)).
      * rewrite Z.max_r by lia.
        replace (toordinal END_DATE + 1 - 1) with (toordinal END_DATE) by lia.
        by rewrite Date_toordinal.
      * rewrite Z.max_l by lia. by rewrite !days_empty by (simpl; lia).
Qed.

End fetch_more.

Section fetch_more_iteration.
Import Fetch.
Variable w : World.

Lemma iteration_saved_missing (d : date) (st : State) :
  saved (iteration w d st).2 = saved st + (if day_saved w d then 1 else 0)
  /\ missing (iteration w d st).2 = missing st + (if day_missing w d then 1 else 0).
Proof.
  rewrite iteration_run. cbn [snd]. unfold day_saved, day_missing.
  destruct (http_get w (url_of d)) as [r|e]; [|simpl; lia].
  destruct (status_code r =? 404) eqn:H404.
  { apply Z.eqb_eq in H404. rewrite (proj2 (Z.eqb_neq _ 200)) by lia. simpl. lia. }
  destruct ((status_code r =? 200) && looks_like_xml (content r)); [|simpl; lia].
  cbv zeta. destruct (write_bytes w _ _); [|simpl; lia].
  destruct (console w _); simpl; lia.
Qed.

(** The events of one iteration: the request first, and no sleep. *)
Lemma day_events_head (d : date) :
  exists rest, day_events w d = Get (url_of d) :: rest /\ Sleep ∉ rest.
Proof.
  unfold day_events. rewrite iteration_run. cbn [snd].
  destruct (http_get w (url_of d)) as [r|e].
  - destruct (status_code r =? 404); [exists []; split; [done|apply not_elem_of_nil]|].
    destruct ((status_code r =? 200) && looks_like_xml (content r));
      [|exists []; split; [done|apply not_elem_of_nil]].
    cbv zeta. destruct (write_bytes w _ _); [destruct (console w _)|];
      eexists; (split; [reflexivity|]);
      intros Hin; set_unfold in Hin; destruct_or?; simplify_eq; done.
  - eexists. split; [reflexivity|].
    intros Hin; set_unfold in Hin; destruct_or?; simplify_eq; done.
Qed.

End fetch_more_iteration.

(** X4: how the loop ends.  For dates of the range of [date], the loop
    ends normally, except when the end date is [date.max] and the range is
    not empty: then the increment after the last iteration raises
    [OverflowError], which nothing catches. *)
Theorem fetch_loop_outcome (w : Fetch.World) (START END_DATE : date) (st : Fetch.State) :
  date_valid START -> date_valid END_DATE ->
  (Fetch.main_loop w END_DATE START st).1
  = if leb START END_DATE && Fetch.is_max END_DATE
    then Raised (Exception "date value out of range")
    else Done tt.
Proof.
  intros HS HE.
  destruct (main_loop_rule w END_DATE (fun _ _ => True) START st HS HE)
    as (st' & -> & _); done.
Qed.

Lemma fetch_loop_outcome_witness :
  (Fetch.main_loop Fetch.sample_world (Date MAXORDINAL) (Date (MAXORDINAL - 2))
     Fetch.init).1 = Raised (Exception "date value out of range")
  /\ (Fetch.main_loop Fetch.sample_world (of_ymd 2026 1 3) Fetch.START_DATE
        Fetch.init).1 = Done tt.
Proof.
  split.
  - refine (fetch_loop_outcome Fetch.sample_world (Date (MAXORDINAL - 2))
              (Date MAXORDINAL) Fetch.init _ _); vm_compute; intuition discriminate.
  - refine (fetch_loop_outcome Fetch.sample_world Fetch.START_DATE
              (of_ymd 2026 1 3) Fetch.init _ _); vm_compute; intuition discriminate.
Defined.

(** An empty range: when the end date is before the start date the loop
    ends at once, with no call made and the counters untouched. *)
Lemma fetch_loop_empty_range
    (w : Fetch.World) (START END_DATE : date) (st : Fetch.State) :
  toordinal END_DATE < toordinal START ->
  Fetch.main_loop w END_DATE START st = (Done tt, st).
Proof.
  intros H. unfold Fetch.main_loop. rewrite while_loop_S. unfold leb.
  by rewrite (proj2 (Z.leb_gt _ _)) by lia.
Qed.

Lemma fetch_loop_empty_range_witness :
  Fetch.main_loop Fetch.sample_world (of_ymd 2025 12 31) Fetch.START_DATE Fetch.init
  = (Done tt, Fetch.init).
Proof.
  apply (fetch_loop_empty_range Fetch.sample_world Fetch.START_DATE (of_ymd 2025 12 31)).
  vm_compute. reflexivity.
Defined.

(** X5: the trace of the loop is one block per day, in order of date: the
    request of the day, what follows from its answer, then one sleep; there
    is no other sleep, and no sleep after the iteration for [date.max]. *)
Theorem fetch_loop_blocks (w : Fetch.World) (START END_DATE : date) (st : Fetch.State) :
  date_valid START -> date_valid END_DATE ->
  trace (Fetch.main_loop w END_DATE START st).2
  = (trace st
     ++ if leb START END_DATE && Fetch.is_max END_DATE
        then flat_map (fun d => Fetch.day_events w d ++ [Sleep])
               (Fetch.days START (Date (toordinal END_DATE - 1)))
             ++ Fetch.day_events w END_DATE
        else flat_map (fun d => Fetch.day_events w d ++ [Sleep])
               (Fetch.days START END_DATE))%list
  /\ forall d, exists rest,
       Fetch.day_events w d = Get (Fetch.url_of d) :: rest /\ Sleep ∉ rest.
Proof.
  intros HS HE. split; [by apply main_loop_trace|]. intros d. apply day_events_head.
Qed.

Lemma fetch_loop_blocks_witness :
  let w := Fetch.sample_world in
  trace (Fetch.main_loop w (of_ymd 2026 1 2) Fetch.START_DATE Fetch.init).2
  = [Get (Fetch.url_of (of_ymd 2026 1 1)); Sleep;
     Get (Fetch.url_of (of_ymd 2026 1 2));
     WriteBytes (Fetch.out_file_of w (of_ymd 2026 1 2)) Fetch.sample_body;
     Print "✅ 2026-01-02_mul@.xml"; Sleep].
Proof.
  intros w.
  refine (proj1 (fetch_loop_blocks w Fetch.START_DATE (of_ymd 2026 1 2) Fetch.init _ _));
    vm_compute; intuition discriminate.
Defined.

(** The two counters after the loop, by kind of day. *)
Lemma main_loop_counts (w : Fetch.World) (START END_DATE : date) (st : Fetch.State) :
  date_valid START -> date_valid END_DATE ->
  let st' := (Fetch.main_loop w END_DATE START st).2 in
  let ds := Fetch.days START END_DATE in
  Fetch.saved st'
  = Fetch.saved st + Z.of_nat (length (List.filter (Fetch.day_saved w) ds))
  /\ Fetch.missing st'
     = Fetch.missing st + Z.of_nat (length (List.filter (Fetch.day_missing w) ds)).
Proof.
  intros HS HE st' ds. subst st' ds.
  destruct (main_loop_rule w END_DATE
    (fun o s =>
       Fetch.saved s
       = Fetch.saved st
         + Z.of_nat (length (List.filter (Fetch.day_saved w)
                               (Fetch.days START (Date (o - 1)))))
       /\ Fetch.missing s
          = Fetch.missing st
            + Z.of_nat (length (List.filter (Fetch.day_missing w)
                                  (Fetch.days START (Date (o - 1))))))
    START st HS HE) as (s' & Hrun & HI).
  - intros o s Ho [Hs Hm]. replace (o + 1 - 1) with o by lia.
    destruct (iteration_saved_missing w (Date o) s) as [-> ->].
    rewrite Hs, Hm, (days_snoc START o) by lia.
    rewrite !List.filter_app, !length_app. simpl.
    destruct (Fetch.day_saved w (Date o)), (Fetch.day_missing w (Date o));
      simpl; lia.
  - intros o s Hs. exact Hs.
  - rewrite days_empty by (simpl; lia). simpl. lia.
  - rewrite Hrun. cbn [snd].
    destruct (Z.le_gt_cases (toordinal START) (toordinal END_DATE)) as [Hle|Hgt].
    + rewrite Z.max_r in HI by lia.
      replace (toordinal END_DATE + 1 - 1) with (toordinal END_DATE) in HI by lia.
      by rewrite Date_toordinal in HI.
    + rewrite Z.max_l in HI by lia.
      by rewrite !days_empty in * by (simpl; lia).
Qed.

(** X6: the counters after the loop: [saved] has grown by the number of
    days whose response was a 200 that passed the sniff and whose file was
    written; [missing] by the number of days with any other response; days
    whose request or write raised are in neither. *)
Theorem fetch_counts_by_kind (w : Fetch.World) (START END_DATE : date) (st : Fetch.State) :
  date_valid START -> date_valid END_DATE ->
  let st' := (Fetch.main_loop w END_DATE START st).2 in
  let ds := Fetch.days START END_DATE in
  Fetch.saved st'
  = Fetch.saved st + Z.of_nat (length (List.filter (Fetch.day_saved w) ds))
  /\ Fetch.missing st'
     = Fetch.missing st + Z.of_nat (length (List.filter (Fetch.day_missing w) ds))
  /\ forall d, Fetch.day_saved w d && Fetch.day_missing w d = false.
Proof.
  intros HS HE st' ds.
  destruct (main_loop_counts w START END_DATE st HS HE) as [Hs Hm].
  split; [done|]. split; [done|].
  intros d. unfold Fetch.day_saved, Fetch.day_missing.
  destruct (Fetch.http_get w (Fetch.url_of d)) as [r|e]; [|done].
  destruct (_ && Fetch.looks_like_xml _); simpl; [by rewrite andb_false_r|done].
Qed.

Lemma fetch_counts_by_kind_witness :
  let w := Fetch.sample_world in
  let st' := (Fetch.main_loop w (of_ymd 2026 1 5) Fetch.START_DATE Fetch.init).2 in
  let ds := Fetch.days Fetch.START_DATE (of_ymd 2026 1 5) in
  Fetch.saved st' = 0 + Z.of_nat (length (List.filter (Fetch.day_saved w) ds))
  /\ Fetch.missing st' = 0 + Z.of_nat (length (List.filter (Fetch.day_missing w) ds)).
Proof.
  intros w st' ds.
  destruct (fetch_counts_by_kind w Fetch.START_DATE (of_ymd 2026 1 5) Fetch.init)
    as (Hs & Hm & _); [vm_compute; intuition discriminate..|].
  split; [exact Hs|exact Hm].
Defined.

(** When the output directory cannot be made, [main] ends with that
    exception right after the [mkdir] call: no request is issued and
    nothing is printed. *)
Lemma fetch_main_mkdir_fails (w : Fetch.World) (END_DATE : date) (e : exn) :
  Fetch.mkdir w (Fetch.OUT_DIR w) = Raise e ->
  (Fetch.main w END_DATE Fetch.init).1 = Raised e
  /\ trace (Fetch.main w END_DATE Fetch.init).2 = [Mkdir (Fetch.OUT_DIR w)].
Proof. intros Hmk. unfold Fetch.main, bind, call at 1. by rewrite Hmk. Qed.

Lemma fetch_main_mkdir_fails_witness :
  let w := {| Fetch.home := "/nowhere";
              Fetch.mkdir := fun _ => Raise (Exception "No such file or directory");
              Fetch.http_get := Fetch.http_get Fetch.sample_world;
              Fetch.write_bytes := fun _ _ => Ok tt;
              Fetch.console := fun _ => Ok tt |} in
  (Fetch.main w (of_ymd 2026 1 3) Fetch.init).1
    = Raised (Exception "No such file or directory")
  /\ trace (Fetch.main w (of_ymd 2026 1 3) Fetch.init).2
     = [Mkdir (Child (Path "/nowhere") "2026")].
Proof.
  intros w.
  apply (fetch_main_mkdir_fails w (of_ymd 2026 1 3)
           (Exception "No such file or directory")).
  reflexivity.
Defined.

(** X8: a whole run that reaches its end (the directory is made, the end
    date is not [date.max]): [main] ends normally; its trace is the
    [mkdir], the blocks of the days from [START_DATE] to the end date, and
    the summary; the summary reports the number of days saved and the
    number of days counted as missing. *)
Theorem fetch_main_summary (w : Fetch.World) (END_DATE : date) :
  Fetch.mkdir w (Fetch.OUT_DIR w) = Ok tt ->
  date_valid END_DATE -> toordinal END_DATE < MAXORDINAL ->
  let ds := Fetch.days Fetch.START_DATE END_DATE in
  let n_saved := Z.of_nat (length (List.filter (Fetch.day_saved w) ds)) in
  let n_missing := Z.of_nat (length (List.filter (Fetch.day_missing w) ds)) in
  (Fetch.main w END_DATE Fetch.init).1 = Done tt
  /\ trace (Fetch.main w END_DATE Fetch.init).2
     = (Mkdir (Fetch.OUT_DIR w)
        :: flat_map (fun d => Fetch.day_events w d ++ [Sleep]) ds
        ++ [Print (String "010" "Done");
            Print ("Saved XMLs: " ++ Fmt.str n_saved);
            Print ("No record / skipped: " ++ Fmt.str n_missing)])%list.
Proof.
  intros Hmk HE Hmax ds n_saved n_missing.
  assert (date_valid Fetch.START_DATE) as HS by (vm_compute; intuition discriminate).
  set (st0 := emit (Mkdir (Fetch.OUT_DIR w)) Fetch.init).
  pose proof (main_loop_trace w END_DATE Fetch.START_DATE st0 HS HE) as Htr.
  pose proof (main_loop_counts w Fetch.START_DATE END_DATE st0 HS HE) as [Hs Hm].
  destruct (main_loop_rule w END_DATE (fun _ _ => True) Fetch.START_DATE st0 HS HE)
    as (s' & Hrun & _); [done..|].
  assert (Fetch.is_max END_DATE = false) as Hnot
    by (unfold Fetch.is_max; apply Z.eqb_neq; lia).
  unfold Fetch.is_max in Hnot. rewrite Hnot, andb_false_r in Hrun.
  fold (Fetch.is_max END_DATE) in Hnot. rewrite Hnot, andb_false_r in Htr.
  cbv zeta in Hs, Hm. rewrite Hrun in Htr, Hs, Hm. cbn [snd] in Htr, Hs, Hm.
  assert (Fetch.main w END_DATE Fetch.init
          = (Done tt,
             emit (Print ("No record / skipped: " ++ Fmt.str (Fetch.missing s')))
               (emit (Print ("Saved XMLs: " ++ Fmt.str (Fetch.saved s')))
                  (emit (Print (String "010" "Done")) s')))) as ->.
  { unfold Fetch.main, bind, call at 1. rewrite Hmk. fold st0. by rewrite Hrun. }
  cbn [fst snd]. split; [done|].
  rewrite !trace_emit, Htr, Hs, Hm. subst ds n_saved n_missing. simpl.
  by rewrite <- !app_assoc.
Qed.

Lemma fetch_main_summary_witness :
  let w := Fetch.sample_world in
  (Fetch.main w (of_ymd 2026 1 4) Fetch.init).1 = Done tt
  /\ exists blocks,
       trace (Fetch.main w (of_ymd 2026 1 4) Fetch.init).2
       = (Mkdir (Fetch.OUT_DIR w) :: blocks
          ++ [Print (String "010" "Done");
              Print "Saved XMLs: 1";
              Print "No record / skipped: 2"])%list.
Proof.
  intros w.
  destruct (fetch_main_summary w (of_ymd 2026 1 4)) as [Hdone Htr];
    [reflexivity|vm_compute; intuition discriminate|vm_compute; reflexivity|].
  split; [exact Hdone|]. eexists. exact Htr.
Defined.

(** ** More on the index of available dates *)

Section index_order.
Import Re Generate.
Local Open Scope list_scope.

Lemma is_ascii_digit_range (c : N) :
  is_ascii_digit c = true -> (48 <= c <= 57)%N.
Proof. unfold is_ascii_digit. rewrite andb_true_iff, !N.leb_le. done. Qed.

Lemma ascii_date_shape_range (g : ustr) :
  ascii_date_shape g ->
  exists y1 y2 y3 y4 m1 m2 d1 d2 : N,
    ((48 <= y1 <= 57) /\ (48 <= y2 <= 57) /\ (48 <= y3 <= 57) /\ (48 <= y4 <= 57)
     /\ (48 <= m1 <= 57) /\ (48 <= m2 <= 57) /\ (48 <= d1 <= 57) /\ (48 <= d2 <= 57))%N
    /\ g = [y1; y2; y3; y4; 45%N; m1; m2; 45%N; d1; d2].
Proof.
  intros (y1&y2&y3&y4&m1&m2&d1&d2&Hy1&Hy2&Hy3&Hy4&Hm1&Hm2&Hd1&Hd2&->).
  unfold digit, is_digit in *. rewrite orb_false_r in *.
  repeat match goal with
  | H : is_ascii_digit _ = true |- _ => apply is_ascii_digit_range in H
  end.
  exists y1, y2, y3, y4, m1, m2, d1, d2. done.
Qed.

(** On date substrings in [0-9] the order of [str] is the order of the
    numbers (year, month, day) they spell. *)
Lemma ascii_date_shape_uleb (g1 g2 : ustr) :
  ascii_date_shape g1 -> ascii_date_shape g2 ->
  uleb g1 g2 = ymd_leb (numbers g1) (numbers g2).
Proof.
  intros (y1&y2&y3&y4&m1&m2&d1&d2&Hr1& ->)%ascii_date_shape_range
         (z1&z2&z3&z4&n1&n2&e1&e2&Hr2& ->)%ascii_date_shape_range.
  apply eq_true_iff_eq. unfold numbers. rewrite ymd_leb_spec.
  cbn [uleb].
  repeat match goal with
  | |- context [N.ltb ?a ?b] => destruct (N.ltb_spec a b); cbn [orb andb]
  | |- context [N.eqb ?a ?b] => destruct (N.eqb_spec a b); cbn [orb andb]
  end; (split; [intros Hc; first [discriminate Hc | lia]
              | intros ?; first [reflexivity | exfalso; lia]]).
Qed.

End index_order.

Section index_more.
Import Re Generate.
Variable nd : N -> bool.
Local Open Scope list_scope.

Lemma StronglySorted_weaken {A} (R R' : relation A) (l : list A) :
  (forall x y, x ∈ l -> y ∈ l -> R x y -> R' x y) ->
  StronglySorted R l -> StronglySorted R' l.
Proof.
  intros Himpl Hl. induction Hl as [|x l Hl IH Hx]; constructor.
  - apply IH. intros y z Hy Hz. apply Himpl; by right.
  - apply Forall_forall. intros y Hy. rewrite Forall_forall in Hx.
    apply Himpl; [left|by right|by apply Hx].
Qed.

(** A printable ASCII character other than the quote and the backslash is
    its own escape. *)
Lemma escape_char_plain (c : N) :
  (32 <= c <= 126)%N -> c <> 34%N -> c <> 92%N -> ulit (Json.escape_char c) = [c].
Proof.
  intros Hc H34 H92. unfold Json.escape_char.
  repeat match goal with
  | |- context [N.eqb c ?k] => destruct (N.eqb_spec c k); [lia|]
  end.
  rewrite (proj2 (N.leb_le 32 c)), (proj2 (N.leb_le c 126)) by lia. cbn [andb].
  rewrite ulit_String. unfold uchar. rewrite N_ascii_embedding by lia. done.
Qed.

(** A date substring in [0-9] needs no escape in JSON. *)
Lemma escape_ascii_date_shape (g : ustr) :
  ascii_date_shape g -> ulit (Json.escape g) = g.
Proof.
  intros (y1&y2&y3&y4&m1&m2&d1&d2&Hr& ->)%ascii_date_shape_range.
  cbn [Json.escape]. rewrite !ulit_app, !escape_char_plain by lia. done.
Qed.

Lemma collect_ext (files1 files2 : list ustr) :
  (forall f, f ∈ files1 <-> f ∈ files2) -> collect nd files1 = collect nd files2.
Proof.
  intros Hsame. apply set_eq. intros g. rewrite !elem_of_collect.
  by setoid_rewrite Hsame.
Qed.

Lemma length_sorted_dates (files : list ustr) :
  (length (sorted_dates nd files) <= length files)%nat.
Proof.
  unfold sorted_dates, sorted. rewrite merge_sort_Permutation.
  change (length (elements (collect nd files))) with (size (collect nd files)).
  unfold collect.
  assert (forall acc : gset ustr,
            (size (foldl (fun dates f =>
                            match search nd date_pattern f with
                            | Some g => dates ∪ {[ g ]}
                            | None => dates
                            end) acc files)
             <= size acc + length files)%nat) as Hacc.
  { induction files as [|f files IH]; intros acc; simpl; [lia|].
    etrans; [apply IH|].
    destruct (search nd date_pattern f) as [g|]; [|lia].
    pose proof (size_union_alt acc {[ g ]}) as Hu.
    assert ({[ g ]} ∖ acc ⊆ ({[ g ]} : gset ustr)) as Hsub
      by (intros x [Hx _]%elem_of_difference; exact Hx).
    pose proof (subseteq_size _ _ Hsub) as Hd.
    rewrite size_singleton in Hd. lia. }
  specialize (Hacc ∅). by rewrite size_empty in Hacc.
Qed.

End index_more.

(** X9: the index does not depend on the order of the listing nor on
    repetitions in it: two listings with the same paths give the same
    list of dates. *)
Theorem index_ignores_order_and_repeats (nd : N -> bool) (files1 files2 : list ustr) :
  (forall f, f ∈ files1 <-> f ∈ files2) ->
  Generate.sorted_dates nd files1 = Generate.sorted_dates nd files2.
Proof.
  intros Hsame. unfold Generate.sorted_dates. by rewrite (collect_ext nd _ _ Hsame).
Qed.

Lemma index_ignores_order_and_repeats_witness :
  Generate.sorted_dates nd_14
    (ulit <$> ["b/2026-02-03_mul@.xml"; "2026-02-01_mul@.xml"; "b/2026-02-03_mul@.xml"])
  = Generate.sorted_dates nd_14
      (ulit <$> ["2026-02-01_mul@.xml"; "b/2026-02-03_mul@.xml"]).
Proof.
  apply index_ignores_order_and_repeats. intros f. cbn [fmap list_fmap].
  rewrite !elem_of_cons, !elem_of_nil. tauto.
Defined.

(** X10: every entry of the index is a date substring [dddd-dd-dd] of
    decimal digits; an entry in the digits [0-9] needs no escape, so it
    stands in the JSON text between two quotes as it is; and there are at
    most as many entries as paths in the listing. *)
Theorem index_entries_plain (nd : N -> bool) (files : list ustr) :
  (forall g, g ∈ Generate.sorted_dates nd files ->
     Generate.date_shape nd g
     /\ (Generate.ascii_date_shape g ->
         ulit (Json.encode_str g)
         = (uchar Json.quote :: g ++ [uchar Json.quote])%list))
  /\ (length (Generate.sorted_dates nd files) <= length files)%nat.
Proof.
  split; [|apply length_sorted_dates].
  intros g (f & _ & Hg & _)%elem_of_sorted_dates. split; [done|].
  intros Hascii. unfold Json.encode_str.
  by rewrite ulit_String, ulit_app, escape_ascii_date_shape.
Qed.

(** X11: the entries of the index in the digits [0-9] are in the order of
    the numbers they spell: year first, then month, then day. *)
Theorem index_in_numeric_order (nd : N -> bool) (files : list ustr) :
  StronglySorted
    (fun g1 g2 =>
       Generate.ascii_date_shape g1 -> Generate.ascii_date_shape g2 ->
       ymd_leb (Generate.numbers g1) (Generate.numbers g2) = true)
    (Generate.sorted_dates nd files).
Proof.
  apply (StronglySorted_weaken ule); [|apply sorted_ascending].
  intros g1 g2 _ _ Hle Hg1 Hg2.
  by rewrite <- (ascii_date_shape_uleb g1 g2 Hg1 Hg2).
Qed.

Example index_in_numeric_order_sample :
  Generate.sorted_dates nd_14
    (ulit <$> ["2026-10-02_mul@.xml"; "2026-02-11_mul@.xml"; "2025-12-31_mul@.xml"])
  = ulit <$> ["2025-12-31"; "2026-02-11"; "2026-10-02"].
Proof. vm_compute. reflexivity. Qed.

(** X12: [main] writes nothing but the index: a text is written only
    after the listing has arrived and the directory has been made, to
    [data/available-dates.json], and it is the JSON text of the sorted
    dates of the listing. *)
Theorem generate_writes_only_index
    (nd : N -> bool) (w : Generate.World) (p : path) (text : string) :
  WriteText p text ∈ trace (Generate.main nd w []).2 ->
  exists files,
    Generate.list_repo_files w = Ok files
    /\ Generate.mkdir w (Path "data") = Ok tt
    /\ p = Child (Path "data") "available-dates.json"
    /\ text = Json.dumps_indent2 (Generate.sorted_dates nd files).
Proof.
  unfold Generate.main, bind, print, call.
  destruct (Generate.list_repo_files w) as [files|e]; cycle 1.
  { cbn [snd]. intros Hin. set_unfold in Hin. destruct_or?; simplify_eq; done. }
  change (parent_of Generate.OUTPUT) with (Path "data").
  destruct (Generate.mkdir w (Path "data")) as [[]|e]; cycle 1.
  { cbn [snd]. intros Hin. set_unfold in Hin. destruct_or?; simplify_eq; done. }
  cbv zeta.
  intros Hin. exists files. split; [done|]. split; [done|].
  assert (WriteText p text
          = WriteText Generate.OUTPUT
              (Json.dumps_indent2 (Generate.sorted_dates nd files)))
    as [= -> ->]; [|done].
  revert Hin.
  destruct (Generate.write_text w _ _) as [[]|e]; cbn [snd]; intros Hin;
    set_unfold in Hin; destruct_or?; simplify_eq; done.
Qed.

(** When the listing fails, [main] ends with that exception: no
    directory is made and nothing is written. *)
Lemma generate_main_listing_fails (nd : N -> bool) (w : Generate.World) (e : exn) :
  Generate.list_repo_files w = Raise e ->
  Generate.main nd w []
  = (Raised e,
     [Print "Listing files in dataset bubcass/oireachtas-debates...";
      ListRepoFiles "bubcass/oireachtas-debates" "dataset" "main"]).
Proof. intros Hw. unfold Generate.main, bind, print, call. by rewrite Hw. Qed.

Lemma generate_main_listing_fails_witness :
  let w := {| Generate.list_repo_files := Raise (Exception "401 Unauthorized");
              Generate.mkdir := fun _ => Ok tt;
              Generate.write_text := fun _ _ => Ok tt |} in
  Generate.main nd_14 w []
  = (Raised (Exception "401 Unauthorized"),
     [Print "Listing files in dataset bubcass/oireachtas-debates...";
      ListRepoFiles "bubcass/oireachtas-debates" "dataset" "main"]).
Proof.
  intros w. apply (generate_main_listing_fails nd_14 w (Exception "401 Unauthorized")).
  reflexivity.
Defined.

Lemma generate_writes_only_index_witness :
  exists files,
    Generate.list_repo_files Generate.sample_world = Ok files
    /\ Generate.mkdir Generate.sample_world (Path "data") = Ok tt
    /\ Generate.OUTPUT = Child (Path "data") "available-dates.json"
    /\ Json.dumps_indent2 (Generate.sorted_dates nd_14 Generate.sample_files)
       = Json.dumps_indent2 (Generate.sorted_dates nd_14 files).
Proof.
  apply (generate_writes_only_index nd_14 Generate.sample_world Generate.OUTPUT
           (Json.dumps_indent2 (Generate.sorted_dates nd_14 Generate.sample_files))).
  apply list_elem_of_In. vm_compute. tauto.
Defined.

(** ** The files of the fetch script, seen by the index generator *)

Section fetch_then_index.
Import Re Generate.
Local Open Scope list_scope.

(** The class [0-9], as [is_digit] has it on an empty database. *)
Local Abbreviation ascii_only := (fun _ : N => false).

Lemma digit_is_digit (k : Z) : is_digit ascii_only (uchar (Fmt.digit k)) = true.
Proof.
  unfold Fmt.digit. pose proof (Z.mod_pos_bound k 10 ltac:(lia)) as Hr.
  assert (k mod 10 = 0 \/ k mod 10 = 1 \/ k mod 10 = 2 \/ k mod 10 = 3
          \/ k mod 10 = 4 \/ k mod 10 = 5 \/ k mod 10 = 6 \/ k mod 10 = 7
          \/ k mod 10 = 8 \/ k mod 10 = 9) as Hcases by lia.
  destruct_or?; rewrite Hcases; reflexivity.
Qed.

Ltac shape_of_digits :=
  cbn [String.length Nat.sub Fmt.zeros]; rewrite ?ulit_String;
  change (ulit "") with (@nil N); cbn [has_shape atom_matches];
  by rewrite ?digit_is_digit.

(** [%04d] of a year is four digits. *)
Lemma zpad4_digits (y : Z) :
  1 <= y <= 9999 ->
  has_shape ascii_only [Digit; Digit; Digit; Digit] (ulit (Fmt.zpad 4 y)) = true.
Proof.
  intros Hy. unfold Fmt.zpad, Fmt.str_nonneg.
  rewrite (proj2 (Z.ltb_ge _ _)) by lia.
  assert (y < 10 \/ 10 <= y < 100 \/ 100 <= y < 1000 \/ 1000 <= y) as Hsize by lia.
  destruct Hsize as [H|[H|[H|H]]].
  - rewrite digits_last by lia. shape_of_digits.
  - pose proof (Z.log2_le_mono 8 y ltac:(lia)) as Hlog. change (Z.log2 8) with 3 in Hlog.
    destruct (Z.to_nat (Z.log2 y)) as [|f] eqn:Hf; [lia|].
    rewrite digits_more, digits_last by (try apply Z.div_lt_upper_bound; lia).
    shape_of_digits.
  - pose proof (Z.log2_le_mono 64 y ltac:(lia)) as Hlog. change (Z.log2 64) with 6 in Hlog.
    destruct (Z.to_nat (Z.log2 y)) as [|[|f]] eqn:Hf; [lia..|].
    rewrite !digits_more, digits_last
      by (repeat (try apply Z.div_lt_upper_bound; try apply Z.div_le_lower_bound); lia).
    shape_of_digits.
  - pose proof (Z.log2_le_mono 512 y ltac:(lia)) as Hlog. change (Z.log2 512) with 9 in Hlog.
    destruct (Z.to_nat (Z.log2 y)) as [|[|[|f]]] eqn:Hf; [lia..|].
    rewrite !digits_more, digits_last
      by (repeat (try apply Z.div_lt_upper_bound; try apply Z.div_le_lower_bound); lia).
    shape_of_digits.
Qed.

Lemma zpad2_digits_table :
  forallb (fun k => has_shape ascii_only [Digit; Digit] (ulit (Fmt.zpad 2 k))) (seqZ 1 31)
  = true.
Proof. vm_compute. reflexivity. Qed.

Lemma zpad2_digits (k : Z) :
  1 <= k <= 31 -> has_shape ascii_only [Digit; Digit] (ulit (Fmt.zpad 2 k)) = true.
Proof.
  intros Hk. pose proof zpad2_digits_table as Htab. rewrite forallb_forall in Htab.
  apply Htab. rewrite <- list_elem_of_In, elem_of_seqZ. lia.
Qed.

Lemma has_shape_app (nd : N -> bool) (p1 p2 : list atom) (s1 s2 : ustr) :
  has_shape nd p1 s1 = true -> has_shape nd p2 s2 = true ->
  has_shape nd (p1 ++ p2) (s1 ++ s2) = true.
Proof.
  revert s1. induction p1 as [|a p1 IH]; intros [|c s1] H1 H2; try done.
  simpl in *. apply andb_true_iff in H1 as [-> H1]. by apply IH.
Qed.

(** The ISO string of a date is a date substring in [0-9]. *)
Lemma isoformat_date_shape (d : date) :
  date_valid d -> ascii_date_shape (ulit (isoformat d)).
Proof.
  intros Hd. apply has_shape_date. unfold isoformat, year, month, day.
  destruct (ord2ymd_ymd2ord _ Hd) as (y & m & k & -> & Hc & _).
  apply check_date_fields_elim in Hc as (Hy & Hm & Hk). cbn [fst snd].
  assert (1 <= k <= 31) as Hk'.
  { unfold days_in_month in Hk.
    destruct ((m =? 2) && is_leap y); [lia|].
    apply month_cases in Hm; destruct_or?; subst m; month_tables; lia. }
  change (group1 date_pattern)
    with ([Digit; Digit; Digit; Digit] ++ [Lit (uchar "-")] ++ [Digit; Digit]
          ++ [Lit (uchar "-")] ++ [Digit; Digit]).
  rewrite !ulit_app.
  repeat apply has_shape_app;
    auto using zpad4_digits, zpad2_digits with lia.
Qed.

(** The path of a fetched file, under any directory, is read by the
    pattern as the date the file was fetched for. *)
Lemma search_fetched_file (nd : N -> bool) (w : Fetch.World) (pre : ustr) (d : date) :
  date_valid d ->
  search nd date_pattern (pre ++ ulit (name_of (Fetch.out_file_of w d)))
  = Some (ulit (isoformat d)).
Proof.
  intros Hd. apply search_spec.
  split; [by apply ascii_date_shape_date_shape, isoformat_date_shape|].
  exists pre. left. cbn [name_of Fetch.out_file_of]. by rewrite ulit_app.
Qed.

Lemma numbers_ulit (s : string) : numbers (ulit s) = parse_iso s.
Proof.
  do 10 (destruct s as [|? s]; [reflexivity|]).
  rewrite !ulit_String. unfold numbers, parse_iso, read_decimal, digit_value, uchar.
  repeat f_equal; lia.
Qed.

Lemma isoformat_le (a b : date) :
  date_valid a -> date_valid b -> toordinal a <= toordinal b ->
  ule (ulit (isoformat a)) (ulit (isoformat b)).
Proof.
  intros Ha Hb Hle. unfold ule.
  rewrite ascii_date_shape_uleb by by apply isoformat_date_shape.
  rewrite !numbers_ulit.
  rewrite (proj2 (parse_iso_isoformat a Ha)), (proj2 (parse_iso_isoformat b Hb)).
  rewrite <- leb_ymd_leb by done. unfold leb. by apply Z.leb_le.
Qed.

End fetch_then_index.

(** X13: the two scripts agree on the file names: for every date, the
    file name the fetch script writes for it, under whatever directory
    the file is listed, is read by the index generator as exactly that
    date. *)
Theorem fetched_file_is_indexed
    (nd : N -> bool) (w : Fetch.World) (pre : ustr) (d : date) :
  date_valid d ->
  Generate.sorted_dates nd [(pre ++ ulit (name_of (Fetch.out_file_of w d)))%list]
  = [ulit (isoformat d)].
Proof.
  intros Hd. unfold Generate.sorted_dates, Generate.collect. cbn [foldl].
  rewrite (search_fetched_file nd w pre d Hd).
  unfold Generate.sorted. rewrite (left_id_L ∅ (∪)), elements_singleton. done.
Qed.

Lemma fetched_file_is_indexed_witness :
  Generate.sorted_dates nd_14
    [(ulit "dail/"
      ++ ulit (name_of (Fetch.out_file_of Fetch.sample_world (of_ymd 2026 2 5))))%list]
  = [ulit (isoformat (of_ymd 2026 2 5))].
Proof.
  apply (fetched_file_is_indexed nd_14 Fetch.sample_world (ulit "dail/") (of_ymd 2026 2 5)).
  vm_compute. intuition discriminate.
Defined.

(** X14: the index of the files fetched for a range of dates lists the
    dates of the range in the order of the calendar: the order of [str]
    on ISO dates is the order of the dates. *)
Theorem index_of_fetched_range
    (nd : N -> bool) (w : Fetch.World) (pre : ustr) (START END_DATE : date) :
  date_valid START -> date_valid END_DATE ->
  Generate.sorted_dates nd
    ((fun d => (pre ++ ulit (name_of (Fetch.out_file_of w d)))%list)
       <$> Fetch.days START END_DATE)
  = (fun d => ulit (isoformat d)) <$> Fetch.days START END_DATE.
Proof.
  intros HS HE. symmetry. apply sorted_unique.
  - apply (StronglySorted_fmap _
             (fun a b => date_valid a /\ date_valid b /\ toordinal a < toordinal b)).
    + intros a b (Ha & Hb & Hlt). apply isoformat_le; [done..|lia].
    + apply (StronglySorted_weaken (fun a b => toordinal a < toordinal b));
        [|apply days_ascending].
      intros a b Ha%elem_of_days Hb%elem_of_days Hlt.
      unfold date_valid in *. lia.
  - apply NoDup_Permutation.
    + apply NoDup_fmap_2_strong; [|apply NoDup_days].
      intros a b Ha%elem_of_days Hb%elem_of_days Heq%ulit_inj. revert Heq.
      apply isoformat_inj; unfold date_valid in *; lia.
    + apply NoDup_elements.
    + intros g. rewrite elem_of_elements, elem_of_collect, list_elem_of_fmap. split.
      * intros (d & -> & Hd).
        exists (pre ++ ulit (name_of (Fetch.out_file_of w d)))%list.
        split; [apply list_elem_of_fmap; by exists d|].
        apply search_fetched_file. apply elem_of_days in Hd.
        unfold date_valid in *. lia.
      * intros (f & (d & -> & Hd)%list_elem_of_fmap & Hg). exists d. split; [|done].
        pose proof Hd as Hd'%elem_of_days.
        rewrite search_fetched_file in Hg by (unfold date_valid in *; lia).
        congruence.
Qed.

Lemma index_of_fetched_range_witness :
  Generate.sorted_dates nd_14
    ((fun d => (ulit "dail/" ++ ulit (name_of (Fetch.out_file_of Fetch.sample_world d)))%list)
       <$> Fetch.days (of_ymd 2026 2 27) (of_ymd 2026 3 2))
  = ulit <$> ["2026-02-27"; "2026-02-28"; "2026-03-01"; "2026-03-02"].
Proof.
  refine (index_of_fetched_range nd_14 Fetch.sample_world (ulit "dail/")
            (of_ymd 2026 2 27) (of_ymd 2026 3 2) _ _);
    vm_compute; intuition discriminate.
Defined.

(** ** More on the upload script *)

Section upload_more.
Import Upload.
Local Arguments String.append : simpl nomatch.

(** [main] once the directory is there, by what the listing and the
    upload answer. *)
Lemma upload_main_run (w : World) :
  dir_exists w = true ->
  main w [] =
  match rglob w with
  | Raise e => (Raised e, [Exists DAIL_DIR; Rglob DAIL_DIR "*.xml"])
  | Ok files =>
      let preflight :=
        ([Exists DAIL_DIR; Rglob DAIL_DIR "*.xml";
          Print ("Uploading dail from: " ++ path_str DAIL_DIR);
          Print ("XML files found (recursive): " ++ Fmt.str (Z.of_nat (length files)))]
         ++ match files with
            | f :: _ => [Print ("Example file: " ++ f)]
            | [] => []
            end
         ++ [UploadLargeFolder REPO_ID REPO_TYPE (path_str DAIL_DIR) NUM_WORKERS true 60])%list in
      match upload_large_folder w with
      | Ok _ => (Done tt, (preflight ++ [Print "Done."])%list)
      | Raise e => (Raised e, preflight)
      end
  end.
Proof.
  intros Hw. unfold main, bind, call, print, call, ret. rewrite Hw. cbn [negb].
  destruct (rglob w) as [files|e]; [|done].
  destruct files as [|f files]; by destruct (upload_large_folder w) as [[]|e].
Qed.

End upload_more.

(** X15: once the directory exists and the listing succeeds, the folder
    is uploaded exactly once, whatever the listing holds: the count and
    the example are only printed, an empty listing does not stop the
    upload. *)
Theorem upload_called_once (w : Upload.World) (files : list string) :
  Upload.dir_exists w = true -> Upload.rglob w = Ok files ->
  exists before after,
    trace (Upload.main w []).2
    = (before
       ++ UploadLargeFolder Upload.REPO_ID Upload.REPO_TYPE
            (path_str Upload.DAIL_DIR) Upload.NUM_WORKERS true 60
       :: after)%list
    /\ (forall a b c n v k, UploadLargeFolder a b c n v k ∉ before)
    /\ (forall a b c n v k, UploadLargeFolder a b c n v k ∉ after).
Proof.
  intros Hw Hfiles. rewrite (upload_main_run w Hw), Hfiles. cbv zeta.
  eexists (_ :: _ :: _ :: _ :: match files with _ :: _ => [_] | [] => [] end)%list.
  exists (match Upload.upload_large_folder w with
          | Ok _ => [Print "Done."] | Raise _ => [] end).
  split; [|split].
  - destruct files, (Upload.upload_large_folder w) as [[]|e]; reflexivity.
  - intros a b c n v k Hin. destruct files; set_unfold in Hin;
      destruct_or?; simplify_eq; done.
  - intros a b c n v k Hin. destruct (Upload.upload_large_folder w);
      set_unfold in Hin; destruct_or?; simplify_eq; done.
Qed.

Lemma upload_called_once_witness :
  let w := {| Upload.dir_exists := true;
              Upload.rglob := Ok [];
              Upload.upload_large_folder := Ok tt |} in
  exists before after,
    trace (Upload.main w []).2
    = (before
       ++ UploadLargeFolder Upload.REPO_ID Upload.REPO_TYPE
            (path_str Upload.DAIL_DIR) Upload.NUM_WORKERS true 60
       :: after)%list
    /\ (forall a b c n v k, UploadLargeFolder a b c n v k ∉ before)
    /\ (forall a b c n v k, UploadLargeFolder a b c n v k ∉ after).
Proof.
  intros w. apply (upload_called_once w []); reflexivity.
Defined.

(** X16: errors of the upload script are not caught: when the listing of
    the directory raises, [main] ends with that exception before any
    upload call; when the upload raises, [main] ends with that exception
    and [Done.] is not printed. *)
Theorem upload_errors_propagate (w : Upload.World) (e : exn) :
  Upload.dir_exists w = true ->
  (Upload.rglob w = Raise e ->
     Upload.main w []
     = (Raised e, [Exists Upload.DAIL_DIR; Rglob Upload.DAIL_DIR "*.xml"]))
  /\ (forall files,
        Upload.rglob w = Ok files -> Upload.upload_large_folder w = Raise e ->
        (Upload.main w []).1 = Raised e
        /\ Print "Done." ∉ trace (Upload.main w []).2).
Proof.
  intros Hw. rewrite (upload_main_run w Hw). split.
  - by intros ->.
  - intros files -> ->. cbv zeta. split; [done|]. cbn [snd].
    intros Hin. destruct files; set_unfold in Hin; destruct_or?; simplify_eq.
Qed.

Lemma upload_errors_propagate_witness :
  let w := {| Upload.dir_exists := true;
              Upload.rglob := Ok ["2026-02-01_mul@.xml"];
              Upload.upload_large_folder := Raise (Exception "timed out") |} in
  (Upload.main w []).1 = Raised (Exception "timed out")
  /\ Print "Done." ∉ trace (Upload.main w []).2.
Proof.
  intros w.
  refine (proj2 (upload_errors_propagate w (Exception "timed out") _)
            ["2026-02-01_mul@.xml"] _ _); reflexivity.
Defined.

Lemma index_entries_plain_witness :
  let g := ulit "2026-02-03" in
  Generate.date_shape nd_14 g
  /\ ulit (Json.encode_str g) = (uchar Json.quote :: g ++ [uchar Json.quote])%list.
Proof.
  intros g.
  destruct (proj1 (index_entries_plain nd_14 Generate.sample_files) g) as [Hshape Hplain].
  - apply list_elem_of_In. vm_compute. tauto.
  - split; [exact Hshape|]. apply Hplain.
    exists 50%N, 48%N, 50%N, 54%N, 48%N, 50%N, 48%N, 51%N. repeat split; reflexivity.
Defined.

Lemma index_in_numeric_order_witness :
  StronglySorted
    (fun g1 g2 =>
       Generate.ascii_date_shape g1 -> Generate.ascii_date_shape g2 ->
       ymd_leb (Generate.numbers g1) (Generate.numbers g2) = true)
    (ulit <$> ["2025-12-31"; "2026-02-11"; "2026-10-02"]).
Proof.
  exact (index_in_numeric_order nd_14
           (ulit <$> ["2026-10-02_mul@.xml"; "2026-02-11_mul@.xml";
                      "2025-12-31_mul@.xml"])).
Defined.

(** ** What the fetch script requests *)

Section fetch_requests.
Import Fetch.

Lemma elem_of_gets (url : string) (tr : list event) : Get url ∈ tr <-> url ∈ gets tr.
Proof.
  unfold gets. rewrite list_elem_of_omap. split.
  - intros H. by exists (Get url).
  - intros (ev & Hev & Hurl). destruct ev; simplify_eq. done.
Qed.

Lemma gets_day_events (w : World) (d : date) : gets (day_events w d) = [url_of d].
Proof.
  destruct (iteration_events w d init) as (evs & Htr & Hgets & _).
  unfold day_events. rewrite Htr. done.
Qed.

(** The requests of the loop are requests for days of the range. *)
Lemma main_loop_gets (w : World) (START END_DATE : date) (st : State) (url : string) :
  date_valid START -> date_valid END_DATE ->
  Get url ∈ trace (main_loop w END_DATE START st).2 ->
  Get url ∈ trace st
  \/ exists d, toordinal START <= toordinal d <= toordinal END_DATE /\ url = url_of d.
Proof.
  intros HS HE. rewrite (main_loop_trace w END_DATE START st HS HE).
  intros [Hin|Hin]%elem_of_app; [by left|right].
  assert (exists d, (toordinal START <= toordinal d <= toordinal END_DATE)
            /\ Get url ∈ (day_events w d ++ [Sleep])%list) as (d & Hd & Hev).
  { destruct (leb START END_DATE && is_max END_DATE) eqn:Hcase.
    - apply andb_true_iff in Hcase as [Hle%Z.leb_le _].
      apply elem_of_app in Hin as [Hin|Hin].
      + apply list_elem_of_In, in_flat_map in Hin as (d & Hd & Hev).
        apply list_elem_of_In, elem_of_days in Hd. simpl in Hd.
        exists d. split; [lia|by apply list_elem_of_In].
      + exists END_DATE. split; [lia|]. apply elem_of_app. by left.
    - apply list_elem_of_In, in_flat_map in Hin as (d & Hd & Hev).
      apply list_elem_of_In, elem_of_days in Hd.
      exists d. split; [lia|by apply list_elem_of_In]. }
  exists d. split; [done|].
  apply elem_of_gets in Hev. rewrite gets_app, gets_day_events in Hev.
  simpl in Hev. by apply list_elem_of_singleton in Hev.
Qed.

End fetch_requests.

(** X7: the fetch script requests nothing but the debate records of the
    days from [START_DATE] to the end date, and only once the output
    directory has been made: when [mkdir] raises, no request is issued. *)
Theorem fetch_requests_only_range_days
    (w : Fetch.World) (END_DATE : date) (url : string) :
  date_valid END_DATE ->
  Get url ∈ trace (Fetch.main w END_DATE Fetch.init).2 ->
  Fetch.mkdir w (Fetch.OUT_DIR w) = Ok tt
  /\ exists d,
       toordinal Fetch.START_DATE <= toordinal d <= toordinal END_DATE
       /\ url = Fetch.BASE_URL ++ "/" ++ isoformat d ++ "/debate/mul@/main.xml".
Proof.
  intros HE Hin.
  assert (Fetch.mkdir w (Fetch.OUT_DIR w) = Ok tt
          /\ Get url ∈ trace (Fetch.main_loop w END_DATE Fetch.START_DATE
                                (emit (Mkdir (Fetch.OUT_DIR w)) Fetch.init)).2)
    as [Hmk Hloop].
  { revert Hin. unfold Fetch.main, bind, call at 1.
    destruct (Fetch.mkdir w (Fetch.OUT_DIR w)) as [[]|e].
    - destruct (Fetch.main_loop _ _ _ _) as [[[]|e|msg|] s']; cbn [snd]; try done.
      unfold print, call. cbn [snd]. rewrite !trace_emit.
      intros Hin. set_unfold in Hin. destruct_or?; simplify_eq; done.
    - cbn [snd]. intros Hin. set_unfold in Hin. destruct_or?; simplify_eq; done. }
  split; [done|].
  apply main_loop_gets in Hloop as [Hpre|Hd];
    [|done|vm_compute; intuition discriminate|done].
  set_unfold in Hpre. destruct_or?; simplify_eq; done.
Qed.

Lemma fetch_requests_only_range_days_witness :
  let w := Fetch.sample_world in
  Fetch.mkdir w (Fetch.OUT_DIR w) = Ok tt
  /\ exists d,
       toordinal Fetch.START_DATE <= toordinal d <= toordinal (of_ymd 2026 1 4)
       /\ "https://data.oireachtas.ie/akn/ie/debateRecord/dail/2026-01-03/debate/mul@/main.xml"
          = Fetch.BASE_URL ++ "/" ++ isoformat d ++ "/debate/mul@/main.xml".
Proof.
  intros w.
  apply (fetch_requests_only_range_days w (of_ymd 2026 1 4)).
  - vm_compute. intuition discriminate.
  - apply list_elem_of_In. vm_compute. tauto.
Defined.

Section fetch_written.
Import Fetch.

(** The events of a day of the range are in the trace of the loop. *)
Lemma day_events_in_trace
    (w : World) (START END_DATE d : date) (st : State) (ev : event) :
  date_valid START -> date_valid END_DATE ->
  toordinal START <= toordinal d <= toordinal END_DATE ->
  ev ∈ day_events w d -> ev ∈ trace (main_loop w END_DATE START st).2.
Proof.
  intros HS HE Hd Hev. rewrite (main_loop_trace w END_DATE START st HS HE).
  apply elem_of_app. right.
  destruct (leb START END_DATE && is_max END_DATE).
  - destruct (decide (toordinal d = toordinal END_DATE)) as [Heq|Hne].
    + apply elem_of_app. right. destruct d, END_DATE. simpl in *. by subst.
    + apply elem_of_app. left. apply list_elem_of_In, in_flat_map.
      exists d. split; [|apply list_elem_of_In, elem_of_app; by left].
      apply list_elem_of_In, elem_of_days. simpl. lia.
  - apply list_elem_of_In, in_flat_map.
    exists d. split; [|apply list_elem_of_In, elem_of_app; by left].
    by apply list_elem_of_In, elem_of_days.
Qed.

End fetch_written.

(** X17: every accepted record is written: for a day of the range whose
    response has status 200 and a body that passes the sniff, the loop
    calls [write_bytes] on the file of that day with the body, and when
    the write succeeds it calls [print] with the line of the file name. *)
Theorem fetch_accepted_body_is_written
    (w : Fetch.World) (START END_DATE d : date) (st : Fetch.State)
    (r : Fetch.Response) :
  date_valid START -> date_valid END_DATE ->
  toordinal START <= toordinal d <= toordinal END_DATE ->
  Fetch.http_get w (Fetch.url_of d) = Ok r ->
  Fetch.status_code r = 200 -> Fetch.looks_like_xml (Fetch.content r) = true ->
  let tr := trace (Fetch.main_loop w END_DATE START st).2 in
  WriteBytes (Child (Fetch.OUT_DIR w) (isoformat d ++ "_mul@.xml")) (Fetch.content r) ∈ tr
  /\ (Fetch.write_bytes w (Fetch.out_file_of w d) (Fetch.content r) = Ok tt ->
      Print ("✅ " ++ isoformat d ++ "_mul@.xml") ∈ tr).
Proof.
  intros HS HE Hd Hget H200 Hx tr. subst tr.
  assert (Fetch.day_events w d
          = Get (Fetch.url_of d)
            :: WriteBytes (Fetch.out_file_of w d) (Fetch.content r)
            :: match Fetch.write_bytes w (Fetch.out_file_of w d) (Fetch.content r) with
               | Ok _ =>
                   Print ("✅ " ++ isoformat d ++ "_mul@.xml")
                   :: match Fetch.console w (Fetch.saved_line w d) with
                      | Ok _ => []
                      | Raise e => [Print (Fetch.warning d e)]
                      end
               | Raise e => [Print (Fetch.warning d e)]
               end) as Hevs.
  { unfold Fetch.day_events. rewrite iteration_run, Hget, H200, Hx. cbn [snd].
    change (200 =? 404) with false. change (200 =? 200) with true. cbn [andb]. cbv zeta.
    destruct (Fetch.write_bytes w _ _); [|done]. by destruct (Fetch.console w _). }
  split.
  - apply (day_events_in_trace w START END_DATE d); [done..|].
    rewrite Hevs. right; left.
  - intros Hw. apply (day_events_in_trace w START END_DATE d); [done..|].
    rewrite Hevs, Hw. right; right; left.
Qed.

Lemma fetch_accepted_body_is_written_witness :
  let w := Fetch.sample_world in
  let tr := trace (Fetch.main_loop w (of_ymd 2026 1 4) Fetch.START_DATE Fetch.init).2 in
  WriteBytes (Child (Fetch.OUT_DIR w) (isoformat (of_ymd 2026 1 2) ++ "_mul@.xml"))
    Fetch.sample_body ∈ tr
  /\ (Fetch.write_bytes w (Fetch.out_file_of w (of_ymd 2026 1 2)) Fetch.sample_body = Ok tt ->
      Print ("✅ " ++ isoformat (of_ymd 2026 1 2) ++ "_mul@.xml") ∈ tr).
Proof.
  intros w.
  refine (fetch_accepted_body_is_written w Fetch.START_DATE (of_ymd 2026 1 4)
            (of_ymd 2026 1 2) Fetch.init
            {| Fetch.status_code := 200; Fetch.content := Fetch.sample_body |}
            _ _ _ _ _ _); try reflexivity; vm_compute; intuition discriminate.
Defined.

(** X18: a listing without any dated path gives the empty index, and the
    text written is then [[]]. *)
Theorem index_empty_without_match (nd : N -> bool) (files : list ustr) :
  (forall f g, f ∈ files -> ~ Generate.dated_at_dollar nd f g) ->
  Generate.sorted_dates nd files = []
  /\ Json.dumps_indent2 (Generate.sorted_dates nd files) = "[]".
Proof.
  intros Hnone.
  assert (Generate.sorted_dates nd files = []) as ->; [|done].
  destruct (Generate.sorted_dates nd files) as [|g l] eqn:Hout; [done|].
  assert (g ∈ Generate.sorted_dates nd files) as Hg by (rewrite Hout; left).
  apply elem_of_sorted_dates in Hg as (f & Hf & Hfg). by destruct (Hnone f g).
Qed.

Lemma index_empty_without_match_witness :
  let files := ulit <$> ["README.md"; "2026-02-01.xml"] in
  Generate.sorted_dates nd_14 files = []
  /\ Json.dumps_indent2 (Generate.sorted_dates nd_14 files) = "[]".
Proof.
  intros files. apply index_empty_without_match.
  intros f g Hf Hfg. apply search_spec in Hfg.
  unfold files in Hf. cbn [fmap list_fmap] in Hf.
  rewrite !elem_of_cons, elem_of_nil in Hf.
  destruct Hf as [->|[->|[]]]; vm_compute in Hfg; discriminate Hfg.
Defined.
